(** * Squad Up: a shallow embedding of the client logic and of the mail relay

    The development follows [src/src/main.tsx] (the React client: DTO
    mapper, form validation, mutation handlers, the filtered view and the
    squad card) and [src/api/send-notification.js] (the serverless relay).

    Conventions of the embedding:
    - a JavaScript string is the list of its UTF-16 code units ([jsstring]);
      the regular expressions of the source carry no [u] flag, so they and
      [trim] work on code units, and [===] on strings is equality of lists;
    - [undefined] and [null] are kept apart ([optional] and [nullable]);
    - the numbers the client computes with (capacity, instants in ms) are
      integers, modelled in [Z]; an invalid [Date] (whose [getTime()] is
      [NaN]) is [None];
    - the hosted store, the clock and the mail provider are outside the
      repository: the store is a pair of tables on which requests act, and
      date parsing, lower-casing and the provider's answer are parameters. *)

From Stdlib Require Import ZArith NArith Ascii String Lia.
From stdpp Require Import base option list strings gmap fin_maps.

Local Open Scope Z_scope.

(** ** JavaScript strings *)

Abbreviation jsstring := (list N).

(** The code units of an ASCII literal of the source. *)
Definition js (s : string) : jsstring :=
  (fun a => N_of_ascii a) <$> String.list_ascii_of_string s.

(** [\d] of a regular expression without the [u] flag: [0-9]. *)
Definition isDigit (c : N) : bool := ((48 <=? c) && (c <=? 57))%N.

(** [\s], and the characters [trim] strips: WhiteSpace and LineTerminator
    of ECMAScript (TAB, LF, VT, FF, CR, SP, NBSP, U+1680, U+2000..U+200A,
    U+2028, U+2029, U+202F, U+205F, U+3000, U+FEFF). *)
Definition isSpace (c : N) : bool :=
  (((9 <=? c) && (c <=? 13)) || (c =? 32) || (c =? 160) || (c =? 5760)
   || ((8192 <=? c) && (c <=? 8202)) || (c =? 8232) || (c =? 8233)
   || (c =? 8239) || (c =? 8287) || (c =? 12288) || (c =? 65279))%N.

Fixpoint trimStart (s : jsstring) : jsstring :=
  match s with
  | [] => []
  | c :: s' => if isSpace c then trimStart s' else s
  end.

Definition trimEnd (s : jsstring) : jsstring :=
  reverse (trimStart (reverse s)).

(** [s.trim()] *)
Definition trim (s : jsstring) : jsstring := trimEnd (trimStart s).

(** [!s] for a string: only the empty string is falsy. *)
Definition isEmpty (s : jsstring) : bool :=
  match s with [] => true | _ => false end.

(** [a || b] on strings. *)
Definition orElse (a b : jsstring) : jsstring := if isEmpty a then b else a.

(** [hay.includes(q)] *)
Fixpoint isPrefix (q s : jsstring) : bool :=
  match q, s with
  | [], _ => true
  | _ :: _, [] => false
  | a :: q', b :: s' => (a =? b)%N && isPrefix q' s'
  end.

Fixpoint includes (hay q : jsstring) : bool :=
  isPrefix q hay ||
  match hay with
  | [] => false
  | _ :: hay' => includes hay' q
  end.

(** [undefined] against [null]. *)
Inductive optional (A : Type) : Type :=
  | Undefined
  | Defined (a : A).
Arguments Undefined {A}.
Arguments Defined {A} a.

Inductive nullable (A : Type) : Type :=
  | Null
  | NotNull (a : A).
Arguments Null {A}.
Arguments NotNull {A} a.

(** [x ?? null] and [x ?? undefined] *)
Definition orNull {A} (x : optional A) : nullable A :=
  match x with Undefined => Null | Defined a => NotNull a end.

Definition orUndefined {A} (x : nullable A) : optional A :=
  match x with Null => Undefined | NotNull a => Defined a end.

(** ** Regular expressions

    The three patterns of the source are anchored at both ends and are
    used through [test] only, so matching is membership of the whole
    string in the language of the pattern; it is decided by derivatives. *)
Module Regex.

Inductive t : Type :=
  | Void
  | Eps
  | Class (p : N -> bool)
  | Cat (r1 r2 : t)
  | Alt (r1 r2 : t)
  | Star (r : t).

Definition Opt (r : t) : t := Alt Eps r.
Definition Plus (r : t) : t := Cat r (Star r).

Fixpoint Times (n : nat) (r : t) : t :=
  match n with
  | O => Eps
  | S n' => Cat r (Times n' r)
  end.

Definition AtLeast (n : nat) (r : t) : t := Cat (Times n r) (Star r).

Fixpoint nullable (r : t) : bool :=
  match r with
  | Void => false
  | Eps => true
  | Class _ => false
  | Cat r1 r2 => nullable r1 && nullable r2
  | Alt r1 r2 => nullable r1 || nullable r2
  | Star _ => true
  end.

Fixpoint deriv (c : N) (r : t) : t :=
  match r with
  | Void => Void
  | Eps => Void
  | Class p => if p c then Eps else Void
  | Cat r1 r2 =>
      if nullable r1 then Alt (Cat (deriv c r1) r2) (deriv c r2)
      else Cat (deriv c r1) r2
  | Alt r1 r2 => Alt (deriv c r1) (deriv c r2)
  | Star r1 => Cat (deriv c r1) (Star r1)
  end.

(** [/^r$/.test(s)] *)
Fixpoint test (r : t) (s : jsstring) : bool :=
  match s with
  | [] => nullable r
  | c :: s' => test (deriv c r) s'
  end.

(** The language of a pattern, to state what [test] decides. *)
Inductive lang : t -> jsstring -> Prop :=
  | lang_eps : lang Eps []
  | lang_class p c : p c = true -> lang (Class p) [c]
  | lang_cat r1 r2 s1 s2 : lang r1 s1 -> lang r2 s2 -> lang (Cat r1 r2) (s1 ++ s2)
  | lang_alt_l r1 r2 s : lang r1 s -> lang (Alt r1 r2) s
  | lang_alt_r r1 r2 s : lang r2 s -> lang (Alt r1 r2) s
  | lang_star_nil r : lang (Star r) []
  | lang_star_cons r s1 s2 : lang r s1 -> lang (Star r) s2 -> lang (Star r) (s1 ++ s2).

End Regex.

Definition chr (a : ascii) : N -> bool := fun c => (c =? N_of_ascii a)%N.

(** [[^\s@]] *)
Definition notSpaceAt (c : N) : bool := negb (isSpace c || chr "@" c).

(** [[\d\s().-]] *)
Definition phoneBody (c : N) : bool :=
  isDigit c || isSpace c || chr "(" c || chr ")" c || chr "." c || chr "-" c.

(** [/^[^\s@]+@[^\s@]+\.[^\s@]+$/] *)
Definition emailRe : Regex.t :=
  Regex.Cat (Regex.Plus (Regex.Class notSpaceAt))
    (Regex.Cat (Regex.Class (chr "@"))
       (Regex.Cat (Regex.Plus (Regex.Class notSpaceAt))
          (Regex.Cat (Regex.Class (chr "."))
             (Regex.Plus (Regex.Class notSpaceAt))))).

(** [/^\+?\d[\d\s().-]{6,}$/] *)
Definition phoneRe : Regex.t :=
  Regex.Cat (Regex.Opt (Regex.Class (chr "+")))
    (Regex.Cat (Regex.Class isDigit)
       (Regex.AtLeast 6 (Regex.Class phoneBody))).

(** [/^\d{6}$/] *)
Definition pinRe : Regex.t := Regex.Times 6 (Regex.Class isDigit).

(** [p.replace(/[^+\d]/g, "")]: every code unit that is neither [+] nor a
    digit is replaced by nothing. *)
Definition sanitizePhone (p : jsstring) : jsstring :=
  List.filter (fun c => negb (negb (chr "+" c || isDigit c))) p.

(** ** JSON values, as they travel to the store and through the relay *)
Inductive json : Type :=
  | JNull
  | JBool (b : bool)
  | JNum (z : Z)
  | JStr (s : jsstring)
  | JArr (l : list json)
  | JObj (l : list (jsstring * json)).

(** An object literal of the source whose keys are written in the code. *)
Abbreviation payload := (gmap string json).

(** ** Data model *)

(** [CONTACT_TYPES] *)
Inductive ContactType : Type := Email | Phone | Text | Link.

Definition ContactType_eqb (a b : ContactType) : bool :=
  match a, b with
  | Email, Email | Phone, Phone | Text, Text | Link, Link => true
  | _, _ => false
  end.

(** The string a contact type is at run time. *)
Definition ContactType_str (c : ContactType) : jsstring :=
  match c with
  | Email => js "Email"
  | Phone => js "Phone"
  | Text => js "Text"
  | Link => js "Link"
  end.

Definition ContactType_of_str (s : jsstring) : option ContactType :=
  if decide (s = js "Email") then Some Email
  else if decide (s = js "Phone") then Some Phone
  else if decide (s = js "Text") then Some Text
  else if decide (s = js "Link") then Some Link
  else None.

Record Contact : Type := mkContact { type : ContactType; value : jsstring }.

Module Member.
(** An element of [Squad.members]. *)
Record t : Type := mk {
  name : jsstring;
  note : optional jsstring;
  joinedAt : option Z;
}.
End Member.

Module Squad.
(** [type Squad] *)
Record t : Type := mk {
  id : jsstring;
  title : jsstring;
  leaderName : jsstring;
  date : jsstring;
  time : jsstring;
  location : jsstring;
  discipline : jsstring;
  capacity : Z;
  message : optional jsstring;
  contact : Contact;
  leaderPin : jsstring;
  members : list Member.t;
  createdAt : option Z;
}.
End Squad.

Module Base.
(** [Omit<Squad, "members">], what [mapFromDB] returns. *)
Record t : Type := mk {
  id : jsstring;
  title : jsstring;
  leaderName : jsstring;
  date : jsstring;
  time : jsstring;
  location : jsstring;
  discipline : jsstring;
  capacity : Z;
  message : optional jsstring;
  contact : Contact;
  leaderPin : jsstring;
  createdAt : option Z;
}.
End Base.

Module Draft.
(** [Omit<Squad, "id" | "members" | "createdAt">], what [addSquad] takes. *)
Record t : Type := mk {
  title : jsstring;
  leaderName : jsstring;
  date : jsstring;
  time : jsstring;
  location : jsstring;
  discipline : jsstring;
  capacity : Z;
  message : optional jsstring;
  contact : Contact;
  leaderPin : jsstring;
}.
End Draft.

Module DBSquad.
(** [type DBSquad], a row of the [squads] table. *)
Record t : Type := mk {
  id : jsstring;
  title : jsstring;
  leader_name : jsstring;
  date : jsstring;
  time : jsstring;
  location : jsstring;
  discipline : jsstring;
  capacity : Z;
  message : nullable jsstring;
  contact_type : ContactType;
  contact_value : jsstring;
  leader_pin : jsstring;
  created_at : jsstring;
  created_by : nullable jsstring;
}.
End DBSquad.

Module DBMember.
(** A row of the [members] table, as [load] reads it. *)
Record t : Type := mk {
  squad_id : jsstring;
  name : jsstring;
  note : nullable jsstring;
  joined_at : jsstring;
}.
End DBMember.

(** ** DTO mapper *)

Section Mapper.

(** [new Date(str).getTime()], with [None] for [NaN]. *)
Variable getTime : jsstring -> option Z.

Definition mapFromDB (row : DBSquad.t) : Base.t :=
  {| Base.id := DBSquad.id row;
     Base.title := DBSquad.title row;
     Base.leaderName := DBSquad.leader_name row;
     Base.date := DBSquad.date row;
     Base.time := DBSquad.time row;
     Base.location := DBSquad.location row;
     Base.discipline := DBSquad.discipline row;
     Base.capacity := DBSquad.capacity row;
     Base.message := orUndefined (DBSquad.message row);
     Base.contact :=
       {| type := DBSquad.contact_type row; value := DBSquad.contact_value row |};
     Base.leaderPin := DBSquad.leader_pin row;
     Base.createdAt := getTime (DBSquad.created_at row) |}.

End Mapper.

(** [message: x ?? null] in a payload. *)
Definition jsonOrNull (x : optional jsstring) : json :=
  match orNull x with Null => JNull | NotNull s => JStr s end.

(** The object [addSquad] hands to [insert]; [user] is the id of the
    signed-in user, if any ([user?.id ?? null]). *)
Definition addSquadPayload (user : option jsstring) (data : Draft.t) : payload :=
  list_to_map
    [ ("title", JStr (Draft.title data));
      ("leader_name", JStr (Draft.leaderName data));
      ("date", JStr (Draft.date data));
      ("time", JStr (Draft.time data));
      ("location", JStr (Draft.location data));
      ("discipline", JStr (Draft.discipline data));
      ("capacity", JNum (Draft.capacity data));
      ("message", jsonOrNull (Draft.message data));
      ("contact_type", JStr (ContactType_str (type (Draft.contact data))));
      ("contact_value", JStr (value (Draft.contact data)));
      ("leader_pin", JStr (Draft.leaderPin data));
      ("created_by", match user with Some u => JStr u | None => JNull end) ].

(** The object [saveEdit] hands to [update]. *)
Definition saveEditPayload (updated : Squad.t) : payload :=
  list_to_map
    [ ("title", JStr (Squad.title updated));
      ("leader_name", JStr (Squad.leaderName updated));
      ("date", JStr (Squad.date updated));
      ("time", JStr (Squad.time updated));
      ("location", JStr (Squad.location updated));
      ("discipline", JStr (Squad.discipline updated));
      ("capacity", JNum (Squad.capacity updated));
      ("message", jsonOrNull (Squad.message updated));
      ("contact_type", JStr (ContactType_str (type (Squad.contact updated))));
      ("contact_value", JStr (value (Squad.contact updated)));
      ("leader_pin", JStr (Squad.leaderPin updated)) ].

(** The object [joinSquad] hands to [insert]. *)
Definition joinSquadPayload (id : jsstring) (name : jsstring)
    (note : optional jsstring) : payload :=
  list_to_map
    [ ("squad_id", JStr id); ("name", JStr name); ("note", jsonOrNull note) ].

(** ** The hosted store

    The store is not part of the repository; this is its interface as the
    client uses it: two tables, and the four kinds of request the handlers
    issue.  A write sets exactly the columns named in its payload; a value
    of the wrong type makes the store refuse the write. *)
Module Store.

Record t : Type := mk {
  squads : list DBSquad.t;
  members : list DBMember.t;
}.

Definition colStr (p : payload) (k : string) (old : jsstring) : option jsstring :=
  match p !! k with
  | None => Some old
  | Some (JStr s) => Some s
  | Some _ => None
  end.

Definition colNum (p : payload) (k : string) (old : Z) : option Z :=
  match p !! k with
  | None => Some old
  | Some (JNum z) => Some z
  | Some _ => None
  end.

Definition colNullable (p : payload) (k : string) (old : nullable jsstring)
    : option (nullable jsstring) :=
  match p !! k with
  | None => Some old
  | Some JNull => Some Null
  | Some (JStr s) => Some (NotNull s)
  | Some _ => None
  end.

Definition colContactType (p : payload) (k : string) (old : ContactType)
    : option ContactType :=
  match p !! k with
  | None => Some old
  | Some (JStr s) => ContactType_of_str s
  | Some _ => None
  end.

(** The row [old] after the columns of [p] are written. *)
Definition writeRow (p : payload) (old : DBSquad.t) : option DBSquad.t :=
  id ← colStr p "id" (DBSquad.id old);
  title ← colStr p "title" (DBSquad.title old);
  leader_name ← colStr p "leader_name" (DBSquad.leader_name old);
  date ← colStr p "date" (DBSquad.date old);
  time ← colStr p "time" (DBSquad.time old);
  location ← colStr p "location" (DBSquad.location old);
  discipline ← colStr p "discipline" (DBSquad.discipline old);
  capacity ← colNum p "capacity" (DBSquad.capacity old);
  message ← colNullable p "message" (DBSquad.message old);
  contact_type ← colContactType p "contact_type" (DBSquad.contact_type old);
  contact_value ← colStr p "contact_value" (DBSquad.contact_value old);
  leader_pin ← colStr p "leader_pin" (DBSquad.leader_pin old);
  created_at ← colStr p "created_at" (DBSquad.created_at old);
  created_by ← colNullable p "created_by" (DBSquad.created_by old);
  Some (DBSquad.mk id title leader_name date time location discipline capacity
          message contact_type contact_value leader_pin created_at created_by).

Definition hasKeys (p : payload) (ks : list string) : bool :=
  forallb (fun k => match p !! k with Some _ => true | None => false end) ks.

(** The row an insert creates: the store supplies [id] and [created_at],
    the nullable columns default to null, the others must be given. *)
Definition insertRow (newId now : jsstring) (p : payload) : option DBSquad.t :=
  if hasKeys p ["title"; "leader_name"; "date"; "time"; "location";
                "discipline"; "capacity"; "contact_type"; "contact_value";
                "leader_pin"]
  then writeRow p (DBSquad.mk newId [] [] [] [] [] [] 0 Null Email [] [] now Null)
  else None.

Definition insertMemberRow (now : jsstring) (p : payload) : option DBMember.t :=
  if hasKeys p ["squad_id"; "name"]
  then
    squad_id ← colStr p "squad_id" [];
    name ← colStr p "name" [];
    note ← colNullable p "note" Null;
    joined_at ← colStr p "joined_at" now;
    Some (DBMember.mk squad_id name note joined_at)
  else None.

Inductive Request : Type :=
  | InsertSquad (p : payload)
  | InsertMember (p : payload)
  | UpdateSquad (p : payload) (id : jsstring)
  | DeleteSquad (id : jsstring).

(** What the store does with a request: it may refuse it (network, row
    level security), or apply it, supplying a fresh id and the time. *)
Inductive Reply : Type :=
  | Refused
  | Applied (newId now : jsstring).

Definition updateRow (p : payload) (id : jsstring) (row : DBSquad.t) : DBSquad.t :=
  if decide (DBSquad.id row = id) then default row (writeRow p row) else row.

Definition exec (r : Reply) (req : Request) (st : t) : t :=
  match r with
  | Refused => st
  | Applied newId now =>
      match req with
      | InsertSquad p =>
          match insertRow newId now p with
          | Some row => mk (squads st ++ [row]) (members st)
          | None => st
          end
      | InsertMember p =>
          match insertMemberRow now p with
          | Some row => mk (squads st) (members st ++ [row])
          | None => st
          end
      | UpdateSquad p id => mk (updateRow p id <$> squads st) (members st)
      | DeleteSquad id =>
          mk (List.filter (fun row => negb (bool_decide (DBSquad.id row = id)))
                (squads st))
             (members st)
      end
  end.

End Store.

(** ** Sorting and the instant of a squad *)

Section Instants.

(** [new Date(str).getTime()], with [None] for [NaN]. *)
Variable getTime : jsstring -> option Z.

(** [new Date(`${s.date}T${s.time || "00:00"}`).getTime()] *)
Definition instant (date time : jsstring) : option Z :=
  getTime (date ++ js "T" ++ orElse time (js "00:00")).

(** Subtraction of two numbers either of which may be [NaN]. *)
Definition numSub (a b : option Z) : option Z :=
  match a, b with
  | Some x, Some y => Some (x - y)
  | _, _ => None
  end.

(** [a < b] on numbers either of which may be [NaN]. *)
Definition numLt (a b : option Z) : bool :=
  match a, b with
  | Some x, Some y => x <? y
  | _, _ => false
  end.

Definition byUpcoming (a b : Squad.t) : option Z :=
  numSub (instant (Squad.date a) (Squad.time a))
         (instant (Squad.date b) (Squad.time b)).

End Instants.

(** [Array.prototype.sort(cmp)]: a stable sort; [x] stays in front of [y]
    unless [cmp x y > 0] (a [NaN] from the comparator counts as [0]). *)
Section Sort.

Context {A : Type} (cmp : A -> A -> option Z).

Definition after (x y : A) : bool := numLt (Some 0) (cmp x y).

Fixpoint insertSorted (x : A) (l : list A) : list A :=
  match l with
  | [] => [x]
  | y :: l' => if after x y then y :: insertSorted x l' else x :: l
  end.

Definition sort (l : list A) : list A := foldr insertSorted [] l.

End Sort.

(** ** The main component: state, mutation handlers, the visible list *)

Module Toast.
Inductive Kind : Type := info | success | error.
Record t : Type := mk { kind : Kind; text : string }.
End Toast.

Inductive Tab : Type := browse | post.

Module Filters.
Record t : Type := mk {
  query : jsstring;
  discipline : jsstring;
  onlyUpcoming : bool;
}.
End Filters.

Module MainApp.

(** The state of the component, together with the store it talks to and
    the requests it has issued so far. *)
Record t : Type := mk {
  store : Store.t;
  sent : list Store.Request;
  squads : list Squad.t;
  tab : Tab;
  joinTarget : option Squad.t;
  editTarget : option Squad.t;
  toast : option Toast.t;
}.

Definition setTab (x : Tab) (w : t) : t :=
  mk (store w) (sent w) (squads w) x (joinTarget w) (editTarget w) (toast w).

Definition setJoinTarget (x : option Squad.t) (w : t) : t :=
  mk (store w) (sent w) (squads w) (tab w) x (editTarget w) (toast w).

Definition setEditTarget (x : option Squad.t) (w : t) : t :=
  mk (store w) (sent w) (squads w) (tab w) (joinTarget w) x (toast w).

Definition setToast (k : Toast.Kind) (txt : string) (w : t) : t :=
  mk (store w) (sent w) (squads w) (tab w) (joinTarget w) (editTarget w)
     (Some (Toast.mk k txt)).

(** [await supabase.from(..)...]: the request goes out and the store
    answers with [r]; the handlers never look at the answer. *)
Definition request (r : Store.Reply) (req : Store.Request) (w : t) : t :=
  mk (Store.exec r req (store w)) (sent w ++ [req]) (squads w) (tab w)
     (joinTarget w) (editTarget w) (toast w).

(** [squads.find((x) => x.id === id)] *)
Definition findSquad (id : jsstring) (w : t) : option Squad.t :=
  List.find (fun x => bool_decide (Squad.id x = id)) (squads w).

Definition addSquad (user : option jsstring) (r : Store.Reply)
    (data : Draft.t) (w : t) : t :=
  let w := request r (Store.InsertSquad (addSquadPayload user data)) w in
  let w := setTab browse w in
  setToast Toast.success "Squad posted" w.

Definition joinSquad (r : Store.Reply) (id name : jsstring)
    (note : optional jsstring) (w : t) : t :=
  let w := request r (Store.InsertMember (joinSquadPayload id name note)) w in
  let w := setJoinTarget None w in
  setToast Toast.success "Joined this squad" w.

Definition deleteSquad (r : Store.Reply) (id pin : jsstring) (w : t) : t :=
  match findSquad id w with
  | None => w
  | Some s =>
      if bool_decide (pin ≠ Squad.leaderPin s)
      then setToast Toast.error "PIN is incorrect" w
      else
        let w := request r (Store.DeleteSquad id) w in
        setToast Toast.success "Squad deleted" w
  end.

Definition startEdit (id pin : jsstring) (w : t) : t :=
  match findSquad id w with
  | None => setToast Toast.error "Not found" w
  | Some s =>
      if bool_decide (pin ≠ Squad.leaderPin s)
      then setToast Toast.error "PIN is incorrect" w
      else setEditTarget (Some s) w
  end.

Definition saveEdit (r : Store.Reply) (updated : Squad.t) (w : t) : t :=
  let w := request r (Store.UpdateSquad (saveEditPayload updated) (Squad.id updated)) w in
  let w := setEditTarget None w in
  setToast Toast.success "Squad updated" w.

Section Visible.

Variable getTime : jsstring -> option Z.
(** [String.prototype.toLowerCase] *)
Variable toLowerCase : jsstring -> jsstring.

(** [s.message || ""] *)
Definition messageOrEmpty (m : optional jsstring) : jsstring :=
  match m with
  | Undefined => []
  | Defined s => orElse s []
  end.

(** The callback of [squads.filter] in [visible]. *)
Definition keep (now : Z) (filters : Filters.t) (s : Squad.t) : bool :=
  if Filters.onlyUpcoming filters
     && numLt (instant getTime (Squad.date s) (Squad.time s))
              (Some (now - 86400000))
  then false
  else if bool_decide (Filters.discipline filters ≠ js "All")
          && bool_decide (Squad.discipline s ≠ Filters.discipline filters)
  then false
  else if negb (isEmpty (Filters.query filters))
          && negb (includes
                     (toLowerCase
                        (Squad.title s ++ js " " ++ Squad.location s ++ js " "
                         ++ messageOrEmpty (Squad.message s) ++ js " "
                         ++ Squad.leaderName s))
                     (toLowerCase (Filters.query filters)))
  then false
  else true.

(** [visible], with [now] the value of [Date.now()]. *)
Definition visible (now : Z) (filters : Filters.t) (squads : list Squad.t)
    : list Squad.t :=
  sort (byUpcoming getTime) (List.filter (keep now filters) squads).

End Visible.

End MainApp.

(** ** The squad card *)
Module SquadCard.

(** What the card computes and what its join button shows. *)
Record t : Type := mk {
  used : Z;
  left : Z;
  full : bool;
  joinDisabled : bool;
  joinLabel : string;
}.

Definition render (squad : Squad.t) : t :=
  let used := 1 + Z.of_nat (length (Squad.members squad)) in
  let left := Z.max 0 (Squad.capacity squad - used) in
  let full := left =? 0 in
  {| used := used;
     left := left;
     full := full;
     joinDisabled := full;
     joinLabel := if full then "Squad is full" else "Join squad" |}.

End SquadCard.

(** ** Forms *)

(** [if (bad) e[k] = msg], on the error object of [validate]. *)
Definition flag (bad : bool) (k msg : string) (e : gmap string string)
    : gmap string string :=
  if bad then <[k := msg]> e else e.

(** [Object.keys(e).length === 0] *)
Definition noKeys (e : gmap string string) : bool := Nat.eqb (size e) 0.

(** The checks the two forms share, in the order of the source. *)
Definition commonErrors (title leaderName date time location : jsstring)
    (capacity : Z) (contactType : ContactType) (contactValue : jsstring)
    : gmap string string :=
  let e := ∅ in
  let e := flag (isEmpty (trim title)) "title" "Title is required" e in
  let e := flag (isEmpty (trim leaderName)) "leaderName" "Leader name is required" e in
  let e := flag (isEmpty date) "date" "Date is required" e in
  let e := flag (isEmpty time) "time" "Time is required" e in
  let e := flag (isEmpty (trim location)) "location" "Location is required" e in
  let e := flag ((capacity =? 0) || (capacity <? 1)) "capacity"
             "Capacity must be at least 1" e in
  let e := flag (isEmpty (trim contactValue)) "contact" "Contact detail is required" e in
  let e := flag (ContactType_eqb contactType Email
                 && negb (Regex.test emailRe (trim contactValue)))
             "contact" "Enter a valid email" e in
  let e := flag ((ContactType_eqb contactType Phone || ContactType_eqb contactType Text)
                 && negb (Regex.test phoneRe (trim contactValue)))
             "contact" "Enter a valid phone number" e in
  e.

(** The contact value both forms submit. *)
Definition submittedContact (contactType : ContactType) (contactValue : jsstring)
    : Contact :=
  {| type := contactType;
     value := if ContactType_eqb contactType Phone || ContactType_eqb contactType Text
              then sanitizePhone contactValue
              else trim contactValue |}.

Module PostForm.

(** The state of the form. *)
Record t : Type := mk {
  title : jsstring;
  leaderName : jsstring;
  date : jsstring;
  time : jsstring;
  location : jsstring;
  discipline : jsstring;
  capacity : Z;
  message : jsstring;
  contactType : ContactType;
  contactValue : jsstring;
  leaderPin : jsstring;
  errors : gmap string string;
}.

(** The error object [e] that [validate] builds. *)
Definition validationErrors (f : t) : gmap string string :=
  let e := commonErrors (title f) (leaderName f) (date f) (time f) (location f)
             (capacity f) (contactType f) (contactValue f) in
  if isEmpty (trim (leaderPin f)) then <["leaderPin" := "PIN is required"]> e
  else if negb (Regex.test pinRe (trim (leaderPin f)))
       then <["leaderPin" := "PIN must be 6 digits"]> e
       else e.

Definition setErrors (e : gmap string string) (f : t) : t :=
  mk (title f) (leaderName f) (date f) (time f) (location f) (discipline f)
     (capacity f) (message f) (contactType f) (contactValue f) (leaderPin f) e.

(** [validate()]: the form with its errors set, and the result. *)
Definition validate (f : t) : t * bool :=
  let e := validationErrors f in
  (setErrors e f, noKeys e).

(** The fields after a successful submission. *)
Definition reset (f : t) : t :=
  mk [] [] [] [] [] (js "Sporting Clays") 4 [] Email [] [] (errors f).

(** [submit]: the form afterwards, and the draft handed to [onSubmit]
    when validation passes. *)
Definition submit (f : t) : t * option Draft.t :=
  let '(f', ok) := validate f in
  if negb ok then (f', None)
  else
    (reset f',
     Some {| Draft.title := trim (title f);
             Draft.leaderName := trim (leaderName f);
             Draft.date := date f;
             Draft.time := time f;
             Draft.location := trim (location f);
             Draft.discipline := discipline f;
             Draft.capacity := capacity f;
             Draft.message := Defined (trim (message f));
             Draft.contact := submittedContact (contactType f) (contactValue f);
             Draft.leaderPin := trim (leaderPin f) |}).

End PostForm.

Module EditModal.

(** The state of the modal; [squad] is the prop it was opened with. *)
Record t : Type := mk {
  squad : Squad.t;
  title : jsstring;
  leaderName : jsstring;
  date : jsstring;
  time : jsstring;
  location : jsstring;
  discipline : jsstring;
  capacity : Z;
  message : jsstring;
  contactType : ContactType;
  contactValue : jsstring;
  members : list Member.t;
  err : gmap string string;
}.

(** [squad.message ?? ""] *)
Definition messageOr (m : optional jsstring) : jsstring :=
  match m with Undefined => [] | Defined s => s end.

(** The initial state, prefilled from the squad. *)
Definition open (s : Squad.t) : t :=
  mk s (Squad.title s) (Squad.leaderName s) (Squad.date s) (Squad.time s)
     (Squad.location s) (Squad.discipline s) (Squad.capacity s)
     (messageOr (Squad.message s)) (type (Squad.contact s))
     (value (Squad.contact s)) (Squad.members s) ∅.

Definition validationErrors (f : t) : gmap string string :=
  commonErrors (title f) (leaderName f) (date f) (time f) (location f)
    (capacity f) (contactType f) (contactValue f).

Definition setErr (e : gmap string string) (f : t) : t :=
  mk (squad f) (title f) (leaderName f) (date f) (time f) (location f)
     (discipline f) (capacity f) (message f) (contactType f) (contactValue f)
     (members f) e.

Definition validate (f : t) : t * bool :=
  let e := validationErrors f in
  (setErr e f, noKeys e).

(** [message.trim() || undefined] *)
Definition trimmedOrUndefined (m : jsstring) : optional jsstring :=
  if isEmpty (trim m) then Undefined else Defined (trim m).

(** [submit]: the modal afterwards, and the squad handed to [onSave]
    when validation passes. *)
Definition submit (f : t) : t * option Squad.t :=
  let '(f', ok) := validate f in
  if negb ok then (f', None)
  else
    (f',
     Some {| Squad.id := Squad.id (squad f);
             Squad.members := members f;
             Squad.createdAt := Squad.createdAt (squad f);
             Squad.leaderPin := Squad.leaderPin (squad f);
             Squad.title := trim (title f);
             Squad.leaderName := trim (leaderName f);
             Squad.date := date f;
             Squad.time := time f;
             Squad.location := trim (location f);
             Squad.discipline := discipline f;
             Squad.capacity := capacity f;
             Squad.message := trimmedOrUndefined (message f);
             Squad.contact := submittedContact (contactType f) (contactValue f) |}).

End EditModal.

(** ** The mail relay ([api/send-notification.js]) *)
Module Relay.

(** JavaScript truthiness of a JSON value. *)
Definition truthy (v : json) : bool :=
  match v with
  | JNull => false
  | JBool b => b
  | JNum z => negb (z =? 0)
  | JStr s => negb (isEmpty s)
  | JArr _ => true
  | JObj _ => true
  end.

Fixpoint assoc (k : jsstring) (l : list (jsstring * json)) : option json :=
  match l with
  | [] => None
  | (k', v) :: l' => if decide (k' = k) then Some v else assoc k l'
  end.

(** A property of [req.body || {}]; [None] is [undefined]. *)
Definition field (k : string) (body : option json) : option json :=
  match body with
  | Some (JObj l) => assoc (js k) l
  | _ => None
  end.

(** [x || d] *)
Definition orDefault (x : option json) (d : json) : json :=
  match x with
  | Some v => if truthy v then v else d
  | None => d
  end.

Record Request : Type := mkRequest {
  method : jsstring;
  body : option json;
}.

(** The call made to the provider. *)
Record Call : Type := mkCall {
  url : jsstring;
  authorization : jsstring;
  content : json;
}.

(** What [fetch] followed by [response.json()] comes back with. *)
Inductive Fetched : Type :=
  | Throws
  | Json (data : json).

Record Response : Type := mkResponse {
  status : Z;
  sentBody : json;
  calls : list Call;
}.

Definition messageBody (txt : string) : json :=
  JObj [(js "message", JStr (js txt))].

(** The [fetch] the handler makes: the provider's endpoint, the bearer
    key, and the mail as the JSON body. *)
Definition outgoing (key : jsstring) (to : json) (subject message : option json)
    : Call :=
  mkCall (js "https://api.resend.com/emails")
    (js "Bearer " ++ key)
    (JObj [ (js "from", JStr (js "Squad Up <onboarding@resend.dev>"));
            (js "to", to);
            (js "subject", orDefault subject (JStr (js "Squad Up notification")));
            (js "text", orDefault message (JStr [])) ]).

Section Handler.

(** [process.env.RESEND_API_KEY] *)
Variable apiKey : option jsstring.
(** The provider, as seen through [fetch]. *)
Variable provider : Call -> Fetched.

Definition handler (req : Request) : Response :=
  if bool_decide (method req ≠ js "POST")
  then mkResponse 405 (messageBody "Method not allowed") []
  else
    let email := field "email" (body req) in
    let subject := field "subject" (body req) in
    let message := field "message" (body req) in
    match email with
    | None => mkResponse 400 (messageBody "Missing email") []
    | Some to =>
        if negb (truthy to)
        then mkResponse 400 (messageBody "Missing email") []
        else
          match apiKey with
          | None => mkResponse 500 (messageBody "RESEND_API_KEY is not configured") []
          | Some key =>
              if isEmpty key
              then mkResponse 500 (messageBody "RESEND_API_KEY is not configured") []
              else
                let call := outgoing key to subject message in
                match provider call with
                | Json data => mkResponse 200 data [call]
                | Throws => mkResponse 500 (messageBody "Failed to send email") [call]
                end
          end
    end.

End Handler.

End Relay.

(** ** Vocabulary of the statements *)

(** The characters [sanitizePhone] lets through. *)
Definition phoneChar (c : N) : bool := chr "+" c || isDigit c.

(** A string of exactly six decimal digits. *)
Definition sixDigits (s : jsstring) : Prop :=
  length s = 6%nat /\ Forall (fun c => isDigit c = true) s.

(** [local@domain.tld]: three non-empty parts free of white space and [@],
    separated by an [@] and a dot. *)
Definition emailShaped (s : jsstring) : Prop :=
  exists a b c,
    s = a ++ js "@" ++ b ++ js "." ++ c
    /\ a <> [] /\ b <> [] /\ c <> []
    /\ Forall (fun x => notSpaceAt x = true) (a ++ b ++ c).

(** An optional [+], a digit, then at least six digits, spaces,
    parentheses, dots or dashes. *)
Definition phoneShaped (s : jsstring) : Prop :=
  exists pre d rest,
    s = pre ++ d :: rest
    /\ (pre = [] \/ pre = js "+")
    /\ isDigit d = true
    /\ (6 <= length rest)%nat
    /\ Forall (fun x => phoneBody x = true) rest.

(** A squad with its time replaced. *)
Definition withTime (t : jsstring) (s : Squad.t) : Squad.t :=
  Squad.mk (Squad.id s) (Squad.title s) (Squad.leaderName s) (Squad.date s) t
    (Squad.location s) (Squad.discipline s) (Squad.capacity s) (Squad.message s)
    (Squad.contact s) (Squad.leaderPin s) (Squad.members s) (Squad.createdAt s).

(** A squad without a time, given the time 00:00; others are left alone. *)
Definition atMidnight (s : Squad.t) : Squad.t :=
  if isEmpty (Squad.time s) then withTime (js "00:00") s else s.

(** The filters with the only-upcoming toggle set to [b]. *)
Definition withOnlyUpcoming (b : bool) (f : Filters.t) : Filters.t :=
  Filters.mk (Filters.query f) (Filters.discipline f) b.

(** The squad has an instant, and it lies more than 86,400,000 ms before
    [now]. *)
Definition staleAt (getTime : jsstring -> option Z) (now : Z) (s : Squad.t) : Prop :=
  exists t, instant getTime (Squad.date s) (Squad.time s) = Some t
            /\ now - t > 86400000.

(** The only-upcoming test of [visible] lets the squad through. *)
Definition recent (getTime : jsstring -> option Z) (now : Z) (s : Squad.t) : bool :=
  negb (numLt (instant getTime (Squad.date s) (Squad.time s)) (Some (now - 86400000))).

(** The stored leader PINs, row by row. *)
Definition storedPins (st : Store.t) : list jsstring :=
  DBSquad.leader_pin <$> Store.squads st.

(** What an edit leaves of a stored row [old] in the row [new] that takes
    its place, [updated] being the squad handed to [saveEdit]. *)
Definition editKeeps (updated : Squad.t) (old new : DBSquad.t) : Prop :=
  DBSquad.id new = DBSquad.id old
  /\ DBSquad.created_at new = DBSquad.created_at old
  /\ DBSquad.created_by new = DBSquad.created_by old
  /\ (DBSquad.id old <> Squad.id updated -> new = old)
  /\ (DBSquad.leader_pin old = Squad.leaderPin updated ->
      DBSquad.leader_pin new = DBSquad.leader_pin old).

(** What an applied edit writes into a stored row of the edited squad. *)
Definition editWrites (updated : Squad.t) (new : DBSquad.t) : Prop :=
  DBSquad.title new = Squad.title updated
  /\ DBSquad.leader_name new = Squad.leaderName updated
  /\ DBSquad.date new = Squad.date updated
  /\ DBSquad.time new = Squad.time updated
  /\ DBSquad.location new = Squad.location updated
  /\ DBSquad.discipline new = Squad.discipline updated
  /\ DBSquad.capacity new = Squad.capacity updated
  /\ DBSquad.message new = orNull (Squad.message updated)
  /\ DBSquad.contact_type new = type (Squad.contact updated)
  /\ DBSquad.contact_value new = value (Squad.contact updated)
  /\ DBSquad.leader_pin new = Squad.leaderPin updated.

(** ** Well-formed drafts

    The rules of the post form, stated on the shape of the fields. *)

(** The contact detail is missing, or is not of the shape its type asks. *)
Definition contactMalformed (ct : ContactType) (cv : jsstring) : Prop :=
  trim cv = []
  \/ (ct = Email /\ ~ emailShaped (trim cv))
  \/ ((ct = Phone \/ ct = Text) /\ ~ phoneShaped (trim cv)).

(** The field reported under key [k] is empty or malformed. *)
Definition fieldRejected (f : PostForm.t) (k : string) : Prop :=
  (k = "title" /\ trim (PostForm.title f) = [])
  \/ (k = "leaderName" /\ trim (PostForm.leaderName f) = [])
  \/ (k = "date" /\ PostForm.date f = [])
  \/ (k = "time" /\ PostForm.time f = [])
  \/ (k = "location" /\ trim (PostForm.location f) = [])
  \/ (k = "capacity" /\ PostForm.capacity f < 1)
  \/ (k = "contact" /\ contactMalformed (PostForm.contactType f) (PostForm.contactValue f))
  \/ (k = "leaderPin" /\ ~ sixDigits (trim (PostForm.leaderPin f))).

(** Every required field is present and well-formed. *)
Definition wellFormed (f : PostForm.t) : Prop :=
  trim (PostForm.title f) <> []
  /\ trim (PostForm.leaderName f) <> []
  /\ PostForm.date f <> []
  /\ PostForm.time f <> []
  /\ trim (PostForm.location f) <> []
  /\ 1 <= PostForm.capacity f
  /\ trim (PostForm.contactValue f) <> []
  /\ (PostForm.contactType f = Email -> emailShaped (trim (PostForm.contactValue f)))
  /\ (PostForm.contactType f = Phone \/ PostForm.contactType f = Text ->
      phoneShaped (trim (PostForm.contactValue f)))
  /\ sixDigits (trim (PostForm.leaderPin f)).

(** ** Sample data, for the instances of the statements *)

Definition demoDraft : Draft.t :=
  Draft.mk (js "Saturday clays") (js "Ann") (js "2025-06-07") (js "09:30")
    (js "Elm Creek") (js "Trap") 4 Undefined
    (mkContact Email (js "ann@example.com")) (js "123456").

Definition demoMember (n : string) : Member.t := Member.mk (js n) Undefined (Some 0).

Definition demoSquad : Squad.t :=
  Squad.mk (js "a1") (js "Saturday clays") (js "Ann") (js "2025-06-07") (js "09:30")
    (js "Elm Creek") (js "Trap") 4 Undefined
    (mkContact Email (js "ann@example.com")) (js "111111")
    [demoMember "Bob"; demoMember "Cy"; demoMember "Di"] (Some 0).

Definition demoRow : DBSquad.t :=
  DBSquad.mk (js "a1") (js "Saturday clays") (js "Ann") (js "2025-06-07") (js "09:30")
    (js "Elm Creek") (js "Trap") 4 Null Email (js "ann@example.com") (js "111111")
    (js "2025-06-01T10:00:00Z") Null.

Definition demoApp : MainApp.t :=
  MainApp.mk (Store.mk [demoRow] []) [] [demoSquad] browse None None None.

(** [demoSquad] as a caller of [saveEdit] could pass it, with another PIN. *)
Definition demoRepinned : Squad.t :=
  Squad.mk (js "a1") (js "Saturday clays") (js "Ann") (js "2025-06-07") (js "09:30")
    (js "Elm Creek") (js "Trap") 4 Undefined
    (mkContact Email (js "ann@example.com")) (js "654321") [] (Some 0).

Definition demoPhoneForm : PostForm.t :=
  PostForm.mk (js "Saturday clays") (js "Ann") (js "2025-06-07") (js "09:30")
    (js "Elm Creek") (js "Trap") 4 [] Phone (js "+1 (555) 123-4567") (js "123456") ∅.

(** What [demoPhoneForm] submits. *)
Definition demoPhoneDraft : Draft.t :=
  Draft.mk (js "Saturday clays") (js "Ann") (js "2025-06-07") (js "09:30")
    (js "Elm Creek") (js "Trap") 4 (Defined [])
    (mkContact Phone (js "+15551234567")) (js "123456").

(** A request to the relay, and an answer of the provider. *)
Definition demoMail : Relay.Request :=
  Relay.mkRequest (js "POST")
    (Some (JObj [ (js "email", JStr (js "bob@example.com"));
                  (js "subject", JStr (js "New joiner"));
                  (js "message", JStr (js "Bob joined Saturday clays")) ])).

Definition demoReceipt : json := JObj [(js "id", JStr (js "49a3999c"))].

Definition demoForm : PostForm.t :=
  PostForm.mk (js "Saturday clays") (js "Ann") (js "2025-06-07") (js "09:30")
    (js "Elm Creek") (js "Trap") 4 [] Email (js "ann@example.com") (js "123456") ∅.

(** [demoForm] with, in turn, no title, a bad address, a bad PIN. *)
Definition demoNoTitle : PostForm.t :=
  PostForm.mk [] (js "Ann") (js "2025-06-07") (js "09:30")
    (js "Elm Creek") (js "Trap") 4 [] Email (js "ann@example.com") (js "123456") ∅.

Definition demoBadEmail : PostForm.t :=
  PostForm.mk (js "Saturday clays") (js "Ann") (js "2025-06-07") (js "09:30")
    (js "Elm Creek") (js "Trap") 4 [] Email (js "not-an-email") (js "123456") ∅.

Definition demoBadPin : PostForm.t :=
  PostForm.mk (js "Saturday clays") (js "Ann") (js "2025-06-07") (js "09:30")
    (js "Elm Creek") (js "Trap") 4 [] Email (js "ann@example.com") (js "12a456") ∅.

(** A clock for the instances: every date string is read as instant 0. *)
Definition demoClock : jsstring -> option Z := fun _ => Some 0.

(** The filters of a fresh page: no query, every discipline, upcoming only. *)
Definition demoFilters : Filters.t := Filters.mk [] (js "All") true.

From Stdlib Require Sorted.

(** ** The sync engine ([load]) and the two small dialogs *)

(** [setSquads] *)
Definition setSquads (l : list Squad.t) (w : MainApp.t) : MainApp.t :=
  MainApp.mk (MainApp.store w) (MainApp.sent w) l (MainApp.tab w)
    (MainApp.joinTarget w) (MainApp.editTarget w) (MainApp.toast w).

Section Load.

(** [new Date(str).getTime()], with [None] for [NaN]. *)
Variable getTime : jsstring -> option Z.

(** The object [load] pushes into a group for a member row. *)
Definition memberFromDB (m : DBMember.t) : Member.t :=
  Member.mk (DBMember.name m) (orUndefined (DBMember.note m))
    (getTime (DBMember.joined_at m)).

(** One step of the [forEach] that fills [bySquad]. *)
Definition pushMember (bySquad : gmap jsstring (list Member.t)) (m : DBMember.t)
    : gmap jsstring (list Member.t) :=
  let key := DBMember.squad_id m in
  <[key := default [] (bySquad !! key) ++ [memberFromDB m]]> bySquad.

(** [bySquad]: the member rows grouped by [squad_id]. *)
Definition groupMembers (membersData : list DBMember.t)
    : gmap jsstring (list Member.t) :=
  foldl pushMember ∅ membersData.

(** [{ ...base, members: bySquad[base.id] ?? [] }] *)
Definition attachMembers (bySquad : gmap jsstring (list Member.t)) (r : DBSquad.t)
    : Squad.t :=
  let base := mapFromDB getTime r in
  Squad.mk (Base.id base) (Base.title base) (Base.leaderName base) (Base.date base)
    (Base.time base) (Base.location base) (Base.discipline base)
    (Base.capacity base) (Base.message base) (Base.contact base)
    (Base.leaderPin base) (default [] (bySquad !! Base.id base))
    (Base.createdAt base).

(** [ids], the squad ids the second query of [load] asks members for. *)
Definition requestedIds (rows : option (list DBSquad.t)) : list jsstring :=
  DBSquad.id <$> default [] rows.

(** [load], given what its two queries came back with ([None] is the
    [null] data of a failed query). *)
Definition load (rows : option (list DBSquad.t))
    (membersData : option (list DBMember.t)) (w : MainApp.t) : MainApp.t :=
  let bySquad := groupMembers (default [] membersData) in
  let mapped := attachMembers bySquad <$> default [] rows in
  setSquads (sort (byUpcoming getTime) mapped) w.

End Load.

(** What the store answers to [.from("members").select("*").in("squad_id", ids)]. *)
Definition membersIn (ids : list jsstring) (st : Store.t) : list DBMember.t :=
  List.filter (fun m => bool_decide (DBMember.squad_id m ∈ ids)) (Store.members st).

(** A [load] whose two queries succeed, the store answering the first with
    its squad rows in the order [rows]. *)
Definition reload (getTime : jsstring -> option Z) (rows : list DBSquad.t)
    (w : MainApp.t) : MainApp.t :=
  load getTime (Some rows)
    (Some (membersIn (requestedIds (Some rows)) (MainApp.store w))) w.

Module JoinModal.

(** The state of the modal. *)
Record t : Type := mk {
  name : jsstring;
  note : jsstring;
  err : string;
}.

(** [submit]: the modal afterwards, and the name and note handed to
    [onJoin] when a name was given. *)
Definition submit (f : t) : t * option (jsstring * jsstring) :=
  if isEmpty (trim (name f))
  then (mk (name f) (note f) "Name is required", None)
  else (f, Some (trim (name f), trim (note f))).

End JoinModal.

(** [onJoin={(name, note) => joinSquad(joinTarget.id, { name, note })}] *)
Definition onJoin (r : Store.Reply) (name note : jsstring) (w : MainApp.t)
    : MainApp.t :=
  match MainApp.joinTarget w with
  | Some target => MainApp.joinSquad r (Squad.id target) name (Defined note) w
  | None => w
  end.

Module PinAction.

(** The state of the PIN prompt. *)
Record t : Type := mk {
  open : bool;
  pin : jsstring;
}.

(** The Confirm button: the prompt afterwards, and the PIN handed to
    [onSubmit]. *)
Definition confirm (p : t) : t * jsstring :=
  (mk false [], trim (pin p)).

End PinAction.

(** [contactLabel] *)
Definition contactLabel (method : ContactType) : string :=
  if ContactType_eqb method Email then "Email leader"
  else if ContactType_eqb method Phone then "Call leader"
  else if ContactType_eqb method Text then "Text leader"
  else "Contact leader".

(** ** Vocabulary of the further statements *)

(** Both squads have an instant, and [a]'s is not after [b]'s. *)
Definition notLater (getTime : jsstring -> option Z) (a b : Squad.t) : Prop :=
  exists ta tb,
    instant getTime (Squad.date a) (Squad.time a) = Some ta
    /\ instant getTime (Squad.date b) (Squad.time b) = Some tb
    /\ ta <= tb.

(** The date and time of every squad of the list parse. *)
Definition allDated (getTime : jsstring -> option Z) (l : list Squad.t) : Prop :=
  Forall (fun s => is_Some (instant getTime (Squad.date s) (Squad.time s))) l.

(** The comparator that orders by a numeric key, and the order it sorts
    into; [byUpcoming] is the one whose key is the instant of a squad. *)
Definition keyCmp {A : Type} (key : A -> option Z) (a b : A) : option Z :=
  numSub (key a) (key b).

Definition keyLe {A : Type} (key : A -> option Z) (a b : A) : Prop :=
  exists ta tb, key a = Some ta /\ key b = Some tb /\ ta <= tb.

Definition squadInstant (getTime : jsstring -> option Z) (s : Squad.t) : option Z :=
  instant getTime (Squad.date s) (Squad.time s).

(** The date and time of every row parse. *)
Definition rowsDated (getTime : jsstring -> option Z) (rows : list DBSquad.t) : Prop :=
  Forall (fun r => is_Some (instant getTime (DBSquad.date r) (DBSquad.time r))) rows.

(** The text a query is searched in:
    [`${s.title} ${s.location} ${s.message || ""} ${s.leaderName}`]. *)
Definition searchText (s : Squad.t) : jsstring :=
  Squad.title s ++ js " " ++ Squad.location s ++ js " "
  ++ MainApp.messageOrEmpty (Squad.message s) ++ js " " ++ Squad.leaderName s.

(** ** Further sample data *)

(** A clock that reads the minutes of a ["...THH:MM"] string off its last
    two digits, enough to order the sample squads of one morning. *)
Definition demoMinutes (s : jsstring) : option Z :=
  match reverse s with
  | u :: t :: _ => Some (Z.of_N (t - 48) * 10 + Z.of_N (u - 48))
  | _ => None
  end.

Definition demoRowLate : DBSquad.t :=
  DBSquad.mk (js "b2") (js "Trap night") (js "Cy") (js "2025-06-07") (js "09:45")
    (js "North Range") (js "Trap") 2 (NotNull (js "Bring shells")) Phone
    (js "+15550001111") (js "222222") (js "2025-06-01T11:00:00Z") Null.

Definition demoMemberRow (sid n : string) : DBMember.t :=
  DBMember.mk (js sid) (js n) Null (js "2025-06-02T08:00:00Z").

Definition demoStore : Store.t :=
  Store.mk [demoRowLate; demoRow]
    [demoMemberRow "a1" "Bob"; demoMemberRow "b2" "Di"; demoMemberRow "a1" "Eve"].

Definition demoWorld : MainApp.t :=
  MainApp.mk demoStore [] [] browse None None None.

(** A second squad, later on the same morning. *)
Definition demoLate : Squad.t :=
  Squad.mk (js "b2") (js "Trap night") (js "Cy") (js "2025-06-07") (js "09:45")
    (js "North Range") (js "Trap") 2 (Defined (js "Bring shells"))
    (mkContact Phone (js "+15550001111")) (js "222222")
    [Member.mk (js "Di") Undefined None] None.



(** The row the edit form [f] writes in place of [row]. *)
Definition editedRow (f : EditModal.t) (row : DBSquad.t) : DBSquad.t :=
  DBSquad.mk (DBSquad.id row) (trim (EditModal.title f)) (trim (EditModal.leaderName f))
    (EditModal.date f) (EditModal.time f) (trim (EditModal.location f))
    (EditModal.discipline f) (EditModal.capacity f)
    (orNull (EditModal.trimmedOrUndefined (EditModal.message f)))
    (EditModal.contactType f)
    (value (submittedContact (EditModal.contactType f) (EditModal.contactValue f)))
    (Squad.leaderPin (EditModal.squad f))
    (DBSquad.created_at row) (DBSquad.created_by row).

(** The field the edit form reports under key [k] is empty or malformed. *)
Definition editRejected (f : EditModal.t) (k : string) : Prop :=
  (k = "title" /\ trim (EditModal.title f) = [])
  \/ (k = "leaderName" /\ trim (EditModal.leaderName f) = [])
  \/ (k = "date" /\ EditModal.date f = [])
  \/ (k = "time" /\ EditModal.time f = [])
  \/ (k = "location" /\ trim (EditModal.location f) = [])
  \/ (k = "capacity" /\ EditModal.capacity f < 1)
  \/ (k = "contact"
      /\ contactMalformed (EditModal.contactType f) (EditModal.contactValue f)).

(** A post form whose phone number has four digits among seven characters,
    and the squad a reload shows for it. *)
Definition demoShortPhoneForm : PostForm.t :=
  PostForm.mk (js "Saturday clays") (js "Ann") (js "2025-06-07") (js "09:30")
    (js "Elm Creek") (js "Trap") 4 [] Phone (js "1 2 3 4") (js "123456") ∅.

Definition demoShortPhoneDraft : Draft.t :=
  Draft.mk (js "Saturday clays") (js "Ann") (js "2025-06-07") (js "09:30")
    (js "Elm Creek") (js "Trap") 4 (Defined [])
    (mkContact Phone (js "1234")) (js "123456").

Definition demoShortPhoneSquad : Squad.t :=
  Squad.mk (js "c3") (js "Saturday clays") (js "Ann") (js "2025-06-07") (js "09:30")
    (js "Elm Creek") (js "Trap") 4 (Defined [])
    (mkContact Phone (js "1234")) (js "123456") [] (Some 0).

(** The edit form opened on [demoSquad], with a new title typed in. *)
Definition demoEditForm : EditModal.t :=
  EditModal.mk demoSquad (js " Sunday clays ") (js "Ann") (js "2025-06-07")
    (js "09:30") (js "Elm Creek") (js "Trap") 4 [] Email (js "ann@example.com")
    (Squad.members demoSquad) ∅.

(** What [demoEditForm] hands to [saveEdit]. *)
Definition demoEdited : Squad.t :=
  Squad.mk (js "a1") (js "Sunday clays") (js "Ann") (js "2025-06-07") (js "09:30")
    (js "Elm Creek") (js "Trap") 4 Undefined
    (mkContact Email (js "ann@example.com")) (js "111111")
    (Squad.members demoSquad) (Some 0).

(** A squad for the leader alone, and a PIN prompt typed with spaces. *)
Definition demoSolo : Squad.t :=
  Squad.mk (js "d4") (js "Solo practice") (js "Ann") (js "2025-06-08") (js "08:00")
    (js "Elm Creek") (js "Skeet") 1 Undefined
    (mkContact Email (js "ann@example.com")) (js "333333") [] (Some 0).

Definition demoPrompt : PinAction.t := PinAction.mk true (js " 111111  ").

Definition demoJoinForm : JoinModal.t := JoinModal.mk (js " Flo ") [] "".

(** [demoApp] with the join dialog open on [demoSquad]. *)
Definition demoJoining : MainApp.t :=
  MainApp.setJoinTarget (Some demoSquad) demoApp.


(** * Properties *)

(** ** What [Regex.test] decides *)
Module RegexFacts.
Import Regex.

Lemma lang_void_inv s : lang Void s -> False.
Proof. intros H; inversion H. Qed.

Lemma lang_eps_inv s : lang Eps s -> s = [].
Proof. intros H; by inversion H. Qed.

Lemma lang_class_iff p s : lang (Class p) s <-> exists c, s = [c] /\ p c = true.
Proof.
  split.
  - intros H; inversion H; subst; eauto.
  - intros (c & -> & H). by constructor.
Qed.

Lemma lang_cat_iff r1 r2 s :
  lang (Cat r1 r2) s <-> exists s1 s2, s = s1 ++ s2 /\ lang r1 s1 /\ lang r2 s2.
Proof.
  split.
  - intros H; inversion H; subst; eauto.
  - intros (s1 & s2 & -> & H1 & H2). by constructor.
Qed.

Lemma lang_alt_iff r1 r2 s : lang (Alt r1 r2) s <-> lang r1 s \/ lang r2 s.
Proof.
  split.
  - intros H; inversion H; subst; auto.
  - intros [H|H]; [by apply lang_alt_l | by apply lang_alt_r].
Qed.

Lemma nullable_lang r : nullable r = true <-> lang r [].
Proof.
  induction r; simpl.
  - split; [discriminate | intros H; by apply lang_void_inv in H].
  - split; [constructor | done].
  - rewrite lang_class_iff. split; [discriminate | intros (c & ? & _); discriminate].
  - rewrite andb_true_iff, lang_cat_iff, IHr1, IHr2. split.
    + intros [H1 H2]. by exists [], [].
    + intros (s1 & s2 & Heq & H1 & H2). symmetry in Heq.
      apply app_eq_nil in Heq as [-> ->]. done.
  - rewrite orb_true_iff, lang_alt_iff, IHr1, IHr2. done.
  - split; [constructor | done].
Qed.

Lemma lang_star_cons_inv r c s :
  lang (Star r) (c :: s) ->
  exists s1 s2, s = s1 ++ s2 /\ lang r (c :: s1) /\ lang (Star r) s2.
Proof.
  intros H. remember (Star r) as r' eqn:Hr. remember (c :: s) as s' eqn:Hs.
  revert s Hs. induction H; intros s' Hs; try discriminate.
  injection Hr as ->.
  destruct s1 as [|c1 s1]; simpl in Hs.
  - apply IHlang2; auto.
  - injection Hs as -> <-. eauto.
Qed.

Lemma deriv_lang r : forall c s, lang (deriv c r) s <-> lang r (c :: s).
Proof.
  induction r; intros c s; simpl.
  - split; intros H; by apply lang_void_inv in H.
  - split; intros H; [by apply lang_void_inv in H | by apply lang_eps_inv in H].
  - rewrite lang_class_iff. destruct (p c) eqn:Hp.
    + split.
      * intros H. apply lang_eps_inv in H as ->. eauto.
      * intros (c' & Heq & _). injection Heq as _ ->. constructor.
    + split.
      * intros H; by apply lang_void_inv in H.
      * intros (c' & Heq & Hc). injection Heq as -> _. congruence.
  - assert (Hcat : lang (Cat (deriv c r1) r2) s <->
                   exists s1 s2, s = s1 ++ s2 /\ lang r1 (c :: s1) /\ lang r2 s2).
    { rewrite lang_cat_iff. by setoid_rewrite IHr1. }
    rewrite (lang_cat_iff r1 r2).
    destruct (nullable r1) eqn:Hn.
    + rewrite lang_alt_iff, Hcat, IHr2. split.
      * intros [(s1 & s2 & -> & H1 & H2) | H2].
        -- by exists (c :: s1), s2.
        -- exists [], (c :: s). by rewrite <- nullable_lang.
      * intros (s1 & s2 & Heq & H1 & H2). destruct s1 as [|c1 s1]; simpl in Heq.
        -- right. by rewrite Heq.
        -- injection Heq as -> ->. left. eauto.
    + rewrite Hcat. split.
      * intros (s1 & s2 & -> & H1 & H2). by exists (c :: s1), s2.
      * intros (s1 & s2 & Heq & H1 & H2). destruct s1 as [|c1 s1]; simpl in Heq.
        -- apply nullable_lang in H1. congruence.
        -- injection Heq as -> ->. eauto.
  - rewrite !lang_alt_iff, IHr1, IHr2. done.
  - rewrite lang_cat_iff. setoid_rewrite IHr. split.
    + intros (s1 & s2 & -> & H1 & H2). rewrite app_comm_cons. by constructor.
    + apply lang_star_cons_inv.
Qed.

Lemma test_lang r s : test r s = true <-> lang r s.
Proof.
  revert r; induction s as [|c s IH]; intros r; simpl.
  - apply nullable_lang.
  - rewrite IH. apply deriv_lang.
Qed.

Lemma lang_star_class p s :
  lang (Star (Class p)) s <-> Forall (fun c => p c = true) s.
Proof.
  split.
  - intros H. remember (Star (Class p)) as r eqn:Hr.
    induction H; try discriminate; [constructor|].
    injection Hr as ->. inversion H; subst. simpl. constructor; auto.
  - induction 1 as [|c s Hc _ IH]; [constructor|].
    change (c :: s) with ([c] ++ s). constructor; auto. by constructor.
Qed.

Lemma lang_plus_class p s :
  lang (Plus (Class p)) s <-> s <> [] /\ Forall (fun c => p c = true) s.
Proof.
  unfold Plus. rewrite lang_cat_iff. split.
  - intros (s1 & s2 & -> & H1 & H2).
    apply lang_class_iff in H1 as (c & -> & Hc). apply lang_star_class in H2.
    split; [discriminate|]. simpl. by constructor.
  - intros [Hne H]. destruct H as [|c s Hc H]; [done|].
    exists [c], s. split; [done|]. split; [by constructor | by apply lang_star_class].
Qed.

Lemma lang_times_class p n s :
  lang (Times n (Class p)) s <-> length s = n /\ Forall (fun c => p c = true) s.
Proof.
  revert s; induction n as [|n IH]; intros s; simpl.
  - split.
    + intros H; inversion H; subst. by split.
    + intros [Hl _]. destruct s; [constructor | discriminate].
  - rewrite lang_cat_iff. split.
    + intros (s1 & s2 & -> & H1 & H2).
      apply lang_class_iff in H1 as (c & -> & Hc). apply IH in H2 as [<- H2].
      split; [done|]. simpl. by constructor.
    + intros [Hl H]. destruct H as [|c s Hc H]; [discriminate|].
      exists [c], s. split; [done|]. split; [by constructor|].
      apply IH. split; [by injection Hl | done].
Qed.

Lemma lang_atLeast_class p n s :
  lang (AtLeast n (Class p)) s <-> (n <= length s)%nat /\ Forall (fun c => p c = true) s.
Proof.
  unfold AtLeast. rewrite lang_cat_iff. split.
  - intros (s1 & s2 & -> & H1 & H2).
    apply lang_times_class in H1 as [<- H1]. apply lang_star_class in H2.
    rewrite length_app. split; [lia | by apply Forall_app].
  - intros [Hl H]. exists (take n s), (drop n s).
    rewrite take_drop. split; [done|]. split.
    + apply lang_times_class. split; [rewrite length_take; lia | by apply Forall_take].
    + apply lang_star_class. by apply Forall_drop.
Qed.

End RegexFacts.

(** ** The three patterns of the forms *)

Lemma pinRe_sixDigits s : Regex.test pinRe s = true <-> sixDigits s.
Proof.
  rewrite RegexFacts.test_lang. apply RegexFacts.lang_times_class.
Qed.

Lemma lang_chr a s : Regex.lang (Regex.Class (chr a)) s <-> s = [N_of_ascii a].
Proof.
  rewrite RegexFacts.lang_class_iff. unfold chr. split.
  - intros (c & -> & Hc). apply N.eqb_eq in Hc. by subst.
  - intros ->. eexists; split; [done|]. apply N.eqb_refl.
Qed.

Lemma emailRe_shaped s : Regex.test emailRe s = true <-> emailShaped s.
Proof.
  rewrite RegexFacts.test_lang. unfold emailRe, emailShaped.
  rewrite RegexFacts.lang_cat_iff. split.
  - intros (a & s1 & -> & Ha & H).
    apply RegexFacts.lang_cat_iff in H as (at_ & s2 & -> & Hat & H).
    apply RegexFacts.lang_cat_iff in H as (b & s3 & -> & Hb & H).
    apply RegexFacts.lang_cat_iff in H as (dot & c & -> & Hdot & Hc).
    apply lang_chr in Hat as ->. apply lang_chr in Hdot as ->.
    apply RegexFacts.lang_plus_class in Ha as [Ha1 Ha2].
    apply RegexFacts.lang_plus_class in Hb as [Hb1 Hb2].
    apply RegexFacts.lang_plus_class in Hc as [Hc1 Hc2].
    exists a, b, c. repeat split; auto. by repeat apply Forall_app_2.
  - intros (a & b & c & -> & Ha & Hb & Hc & Hall).
    apply Forall_app in Hall as [Ha2 Hall]. apply Forall_app in Hall as [Hb2 Hc2].
    exists a, (js "@" ++ b ++ js "." ++ c). split; [done|].
    split; [by apply RegexFacts.lang_plus_class|].
    constructor; [by apply lang_chr|].
    constructor; [by apply RegexFacts.lang_plus_class|].
    constructor; [by apply lang_chr | by apply RegexFacts.lang_plus_class].
Qed.

Lemma phoneRe_shaped s : Regex.test phoneRe s = true <-> phoneShaped s.
Proof.
  rewrite RegexFacts.test_lang. unfold phoneRe, phoneShaped, Regex.Opt.
  rewrite RegexFacts.lang_cat_iff. split.
  - intros (pre & s1 & -> & Hpre & H).
    apply RegexFacts.lang_cat_iff in H as (d & rest & -> & Hd & Hrest).
    apply RegexFacts.lang_class_iff in Hd as (c & -> & Hc).
    apply RegexFacts.lang_atLeast_class in Hrest as [Hl Hrest].
    exists pre, c, rest. repeat split; auto.
    apply RegexFacts.lang_alt_iff in Hpre as [Hpre|Hpre].
    + left. by apply RegexFacts.lang_eps_inv.
    + right. by apply lang_chr in Hpre.
  - intros (pre & d & rest & -> & Hpre & Hd & Hl & Hrest).
    exists pre, (d :: rest). split; [done|]. split.
    + apply RegexFacts.lang_alt_iff. destruct Hpre as [-> | ->].
      * left. constructor.
      * right. by apply lang_chr.
    + change (d :: rest) with ([d] ++ rest). constructor; [by constructor|].
      by apply RegexFacts.lang_atLeast_class.
Qed.

(** ** Facts on strings *)

Lemma sanitizePhone_filter p : sanitizePhone p = List.filter phoneChar p.
Proof.
  unfold sanitizePhone, phoneChar. induction p as [|c p IH]; simpl; [done|].
  rewrite negb_involutive, IH. done.
Qed.

Lemma filter_all_true {A} (f : A -> bool) (l : list A) :
  Forall (fun x => f x = true) l -> List.filter f l = l.
Proof.
  induction 1 as [|x l Hx _ IH]; simpl; [done|]. by rewrite Hx, IH.
Qed.

Lemma filter_Forall_true {A} (f : A -> bool) (l : list A) :
  Forall (fun x => f x = true) (List.filter f l).
Proof.
  induction l as [|x l IH]; simpl; [constructor|].
  destruct (f x) eqn:Hx; [by constructor | done].
Qed.

Lemma isEmpty_true s : isEmpty s = true <-> s = [].
Proof. destruct s; simpl; split; congruence. Qed.

Lemma isEmpty_false s : isEmpty s = false <-> s <> [].
Proof. destruct s; simpl; split; congruence. Qed.

(** ** The store, on the payloads the handlers build *)

Lemma ContactType_of_str_str c : ContactType_of_str (ContactType_str c) = Some c.
Proof. by destruct c. Qed.

(** The row an insert of [addSquad]'s payload creates. *)
Lemma insertRow_addSquadPayload user newId now (data : Draft.t) :
  Store.insertRow newId now (addSquadPayload user data) =
  Some (DBSquad.mk newId (Draft.title data) (Draft.leaderName data)
          (Draft.date data) (Draft.time data) (Draft.location data)
          (Draft.discipline data) (Draft.capacity data)
          (orNull (Draft.message data)) (type (Draft.contact data))
          (value (Draft.contact data)) (Draft.leaderPin data) now
          (match user with Some u => NotNull u | None => Null end)).
Proof.
  destruct data as [ti ln da tm lo di ca me [ct cv] pin].
  destruct ct, me, user; vm_compute; reflexivity.
Qed.

(** What a write of [saveEdit]'s payload makes of a row. *)
Lemma writeRow_saveEditPayload (updated : Squad.t) (row : DBSquad.t) :
  Store.writeRow (saveEditPayload updated) row =
  Some (DBSquad.mk (DBSquad.id row) (Squad.title updated) (Squad.leaderName updated)
          (Squad.date updated) (Squad.time updated) (Squad.location updated)
          (Squad.discipline updated) (Squad.capacity updated)
          (orNull (Squad.message updated)) (type (Squad.contact updated))
          (value (Squad.contact updated)) (Squad.leaderPin updated)
          (DBSquad.created_at row) (DBSquad.created_by row)).
Proof.
  destruct updated as [i ti ln da tm lo di ca me [ct cv] pin mem cr].
  destruct row.
  destruct ct, me; vm_compute; reflexivity.
Qed.

(** ** The DTO mapper *)

(** C2: a draft mapped to a storage row the way [addSquad] does (snake-case
    columns, the contact flattened into [contact_type] and [contact_value],
    an undefined message stored as null) and read back through [mapFromDB]
    has the field values it started with; an undefined message is stored
    as null and comes back undefined. *)
Theorem addSquad_mapFromDB_roundtrip (getTime : jsstring -> option Z)
    (user : option jsstring) (newId now : jsstring) (data : Draft.t) :
  exists row,
    Store.insertRow newId now (addSquadPayload user data) = Some row
    /\ (DBSquad.leader_name row = Draft.leaderName data
        /\ DBSquad.contact_type row = type (Draft.contact data)
        /\ DBSquad.contact_value row = value (Draft.contact data)
        /\ DBSquad.leader_pin row = Draft.leaderPin data
        /\ DBSquad.message row = orNull (Draft.message data))
    /\ (Base.title (mapFromDB getTime row) = Draft.title data
        /\ Base.leaderName (mapFromDB getTime row) = Draft.leaderName data
        /\ Base.date (mapFromDB getTime row) = Draft.date data
        /\ Base.time (mapFromDB getTime row) = Draft.time data
        /\ Base.location (mapFromDB getTime row) = Draft.location data
        /\ Base.discipline (mapFromDB getTime row) = Draft.discipline data
        /\ Base.capacity (mapFromDB getTime row) = Draft.capacity data
        /\ Base.message (mapFromDB getTime row) = Draft.message data
        /\ Base.contact (mapFromDB getTime row) = Draft.contact data
        /\ Base.leaderPin (mapFromDB getTime row) = Draft.leaderPin data)
    /\ (Draft.message data = Undefined ->
        addSquadPayload user data !! "message" = Some JNull
        /\ DBSquad.message row = Null
        /\ Base.message (mapFromDB getTime row) = Undefined).
Proof.
  eexists. split; [apply insertRow_addSquadPayload|].
  destruct data as [ti ln da tm lo di ca me [ct cv] pin]; simpl.
  split; [done|]. split.
  - repeat split. by destruct me.
  - intros ->. done.
Qed.

Lemma addSquad_mapFromDB_roundtrip_witness :
  Draft.message demoDraft = Undefined
  /\ exists row,
       Store.insertRow (js "id-1") (js "2025-06-01T10:00:00Z")
         (addSquadPayload None demoDraft) = Some row
       /\ DBSquad.message row = Null
       /\ Base.message (mapFromDB (fun _ => Some 0) row) = Undefined.
Proof.
  split; [reflexivity|].
  destruct (addSquad_mapFromDB_roundtrip (fun _ => Some 0) None (js "id-1")
              (js "2025-06-01T10:00:00Z") demoDraft)
    as (row & Hrow & _ & _ & Hundef).
  exists row. split; [exact Hrow|].
  destruct (Hundef eq_refl) as (_ & Hnull & Hback). split; assumption.
Defined.

(** ** The squad card *)

(** C6: the card shows [used = 1 + members.length] and
    [left = max(0, capacity - used)], the squad is full exactly when
    [left = 0], and the join button is disabled exactly when it is full;
    with capacity 4 and three members, [used = 4], [left = 0], the squad is
    full and joining is disabled. *)
Theorem SquadCard_occupancy (squad : Squad.t) :
  SquadCard.used (SquadCard.render squad)
    = 1 + Z.of_nat (length (Squad.members squad))
  /\ SquadCard.left (SquadCard.render squad)
     = Z.max 0 (Squad.capacity squad - SquadCard.used (SquadCard.render squad))
  /\ (SquadCard.full (SquadCard.render squad) = true
      <-> SquadCard.left (SquadCard.render squad) = 0)
  /\ SquadCard.joinDisabled (SquadCard.render squad)
     = SquadCard.full (SquadCard.render squad)
  /\ (Squad.capacity squad = 4 -> length (Squad.members squad) = 3%nat ->
      SquadCard.used (SquadCard.render squad) = 4
      /\ SquadCard.left (SquadCard.render squad) = 0
      /\ SquadCard.full (SquadCard.render squad) = true
      /\ SquadCard.joinDisabled (SquadCard.render squad) = true).
Proof.
  unfold SquadCard.render; simpl.
  split; [done|]. split; [done|]. split; [apply Z.eqb_eq|]. split; [done|].
  intros -> ->. done.
Qed.

Lemma SquadCard_occupancy_witness :
  (Squad.capacity demoSquad = 4 /\ length (Squad.members demoSquad) = 3%nat)
  /\ SquadCard.used (SquadCard.render demoSquad) = 4
  /\ SquadCard.left (SquadCard.render demoSquad) = 0
  /\ SquadCard.full (SquadCard.render demoSquad) = true
  /\ SquadCard.joinDisabled (SquadCard.render demoSquad) = true.
Proof.
  split; [split; reflexivity|].
  destruct (SquadCard_occupancy demoSquad) as (_ & _ & _ & _ & H).
  apply H; reflexivity.
Defined.

(** ** Phone numbers *)

Lemma PostForm_submit_Some f d :
  (PostForm.submit f).2 = Some d ->
  (PostForm.validate f).2 = true
  /\ Draft.contact d = submittedContact (PostForm.contactType f) (PostForm.contactValue f)
  /\ Draft.leaderPin d = trim (PostForm.leaderPin f).
Proof.
  unfold PostForm.submit. simpl.
  destruct (noKeys (PostForm.validationErrors f)); simpl; [|discriminate].
  intros [= <-]. done.
Qed.

Lemma EditModal_submit_Some f s :
  (EditModal.submit f).2 = Some s ->
  (EditModal.validate f).2 = true
  /\ Squad.contact s = submittedContact (EditModal.contactType f) (EditModal.contactValue f)
  /\ Squad.id s = Squad.id (EditModal.squad f)
  /\ Squad.leaderPin s = Squad.leaderPin (EditModal.squad f)
  /\ Squad.createdAt s = Squad.createdAt (EditModal.squad f)
  /\ Squad.members s = EditModal.members f.
Proof.
  unfold EditModal.submit. simpl.
  destruct (noKeys (EditModal.validationErrors f)); simpl; [|discriminate].
  intros [= <-]. done.
Qed.

Lemma submittedContact_phone ct cv :
  ct = Phone \/ ct = Text ->
  value (submittedContact ct cv) = sanitizePhone cv.
Proof. by intros [-> | ->]. Qed.

Lemma submittedContact_other ct cv :
  ct = Email \/ ct = Link ->
  value (submittedContact ct cv) = trim cv.
Proof. by intros [-> | ->]. Qed.

(** C9: [sanitizePhone] keeps exactly the digits and [+] of its argument,
    in their order, and is idempotent; both forms submit the sanitised
    contact value when the contact type is Phone or Text and the trimmed
    one otherwise, so the Phone and Text contact values they store hold
    digits and [+] only. *)
Theorem sanitizePhone_digits_plus_only :
  (forall p, sanitizePhone p = List.filter phoneChar p)
  /\ (forall p, Forall (fun c => phoneChar c = true) (sanitizePhone p))
  /\ (forall p, sanitizePhone (sanitizePhone p) = sanitizePhone p)
  /\ (forall f d, (PostForm.submit f).2 = Some d ->
        type (Draft.contact d) = PostForm.contactType f
        /\ (PostForm.contactType f = Phone \/ PostForm.contactType f = Text ->
            value (Draft.contact d) = sanitizePhone (PostForm.contactValue f))
        /\ (PostForm.contactType f = Email \/ PostForm.contactType f = Link ->
            value (Draft.contact d) = trim (PostForm.contactValue f)))
  /\ (forall f s, (EditModal.submit f).2 = Some s ->
        type (Squad.contact s) = EditModal.contactType f
        /\ (EditModal.contactType f = Phone \/ EditModal.contactType f = Text ->
            value (Squad.contact s) = sanitizePhone (EditModal.contactValue f))
        /\ (EditModal.contactType f = Email \/ EditModal.contactType f = Link ->
            value (Squad.contact s) = trim (EditModal.contactValue f)))
  /\ (forall f d user newId now row,
        (PostForm.submit f).2 = Some d ->
        Store.insertRow newId now (addSquadPayload user d) = Some row ->
        DBSquad.contact_type row = Phone \/ DBSquad.contact_type row = Text ->
        Forall (fun c => phoneChar c = true) (DBSquad.contact_value row))
  /\ (forall f s old row,
        (EditModal.submit f).2 = Some s ->
        Store.writeRow (saveEditPayload s) old = Some row ->
        DBSquad.contact_type row = Phone \/ DBSquad.contact_type row = Text ->
        Forall (fun c => phoneChar c = true) (DBSquad.contact_value row)).
Proof.
  assert (Hall : forall p, Forall (fun c => phoneChar c = true) (sanitizePhone p)).
  { intros p. rewrite sanitizePhone_filter. apply filter_Forall_true. }
  split; [apply sanitizePhone_filter|]. split; [exact Hall|]. split.
  { intros p. rewrite (sanitizePhone_filter (sanitizePhone p)).
    apply filter_all_true, Hall. }
  split.
  { intros f d Hd. apply PostForm_submit_Some in Hd as (_ & -> & _).
    split; [done|]. split; [apply submittedContact_phone | apply submittedContact_other]. }
  split.
  { intros f s Hs. apply EditModal_submit_Some in Hs as (_ & -> & _).
    split; [done|]. split; [apply submittedContact_phone | apply submittedContact_other]. }
  split.
  - intros f d user newId now row Hd Hrow Hct.
    apply PostForm_submit_Some in Hd as (_ & Hc & _).
    rewrite insertRow_addSquadPayload in Hrow. injection Hrow as <-. simpl in *.
    rewrite Hc in *. simpl in Hct. rewrite (submittedContact_phone _ _ Hct). apply Hall.
  - intros f s old row Hs Hrow Hct.
    apply EditModal_submit_Some in Hs as (_ & Hc & _).
    rewrite writeRow_saveEditPayload in Hrow. injection Hrow as <-. simpl in *.
    rewrite Hc in *. simpl in Hct. rewrite (submittedContact_phone _ _ Hct). apply Hall.
Qed.

Lemma sanitizePhone_digits_plus_only_witness :
  (PostForm.submit demoPhoneForm).2 = Some demoPhoneDraft
  /\ exists row,
       Store.insertRow (js "id-1") (js "2025-06-01T10:00:00Z")
         (addSquadPayload None demoPhoneDraft) = Some row
       /\ DBSquad.contact_type row = Phone
       /\ DBSquad.contact_value row = js "+15551234567"
       /\ Forall (fun c => phoneChar c = true) (DBSquad.contact_value row).
Proof.
  assert (Hd : (PostForm.submit demoPhoneForm).2 = Some demoPhoneDraft)
    by (vm_compute; reflexivity).
  split; [exact Hd|].
  eexists. split; [apply insertRow_addSquadPayload|].
  split; [reflexivity|]. split; [reflexivity|].
  destruct sanitizePhone_digits_plus_only as (_ & _ & _ & _ & _ & Hstored & _).
  apply (Hstored demoPhoneForm demoPhoneDraft None (js "id-1")
           (js "2025-06-01T10:00:00Z") _ Hd (insertRow_addSquadPayload _ _ _ _)).
  left. reflexivity.
Defined.

(** ** Mutation handlers *)

Lemma findSquad_None id w :
  MainApp.findSquad id w = None <-> id ∉ (Squad.id <$> MainApp.squads w).
Proof.
  unfold MainApp.findSquad. induction (MainApp.squads w) as [|x l IH].
  - split; [intros _ H; by apply elem_of_nil in H | done].
  - rewrite fmap_cons, not_elem_of_cons. cbn [List.find]. case_bool_decide as Hx.
    + split; [discriminate | intros [Hne _]; congruence].
    + rewrite IH. split; [intros ?; split; [congruence | done] | tauto].
Qed.

Lemma updateRow_keeps r updated old :
  editKeeps updated old
    (match r with
     | Store.Refused => old
     | Store.Applied _ _ =>
         Store.updateRow (saveEditPayload updated) (Squad.id updated) old
     end).
Proof.
  unfold editKeeps, Store.updateRow. destruct r as [|newId now]; [done|].
  case_decide as Hid; [|done].
  rewrite writeRow_saveEditPayload. simpl. repeat split; auto. congruence.
Qed.

(** C1, amended: [saveEdit] issues one update, keyed by the id of the squad
    it is given, whose payload has exactly the keys title, leader_name,
    date, time, location, discipline, capacity, message, contact_type,
    contact_value and leader_pin, the last holding the given squad's
    [leaderPin]; the payload has no id, created_at, created_by or member
    field, so those stored values and the members table are unchanged by
    an edit, rows of other squads are untouched, and the stored PIN is
    unchanged whenever the given squad carries the stored PIN, which the
    squad built by the edit form does (it copies id, PIN, creation time and
    members from the squad the form was opened with). *)
Theorem saveEdit_frame (r : Store.Reply) (updated : Squad.t) (w : MainApp.t) :
  MainApp.sent (MainApp.saveEdit r updated w)
    = MainApp.sent w
      ++ [Store.UpdateSquad (saveEditPayload updated) (Squad.id updated)]
  /\ dom (saveEditPayload updated)
     = list_to_set ["title"; "leader_name"; "date"; "time"; "location";
                    "discipline"; "capacity"; "message"; "contact_type";
                    "contact_value"; "leader_pin"]
  /\ saveEditPayload updated !! "leader_pin" = Some (JStr (Squad.leaderPin updated))
  /\ (saveEditPayload updated !! "id" = None
      /\ saveEditPayload updated !! "created_at" = None
      /\ saveEditPayload updated !! "created_by" = None
      /\ saveEditPayload updated !! "members" = None)
  /\ Store.members (MainApp.store (MainApp.saveEdit r updated w))
     = Store.members (MainApp.store w)
  /\ Forall2 (editKeeps updated)
       (Store.squads (MainApp.store w))
       (Store.squads (MainApp.store (MainApp.saveEdit r updated w)))
  /\ (forall newId now old,
        r = Store.Applied newId now ->
        old ∈ Store.squads (MainApp.store w) ->
        DBSquad.id old = Squad.id updated ->
        exists new,
          new ∈ Store.squads (MainApp.store (MainApp.saveEdit r updated w))
          /\ DBSquad.id new = DBSquad.id old
          /\ editWrites updated new)
  /\ (forall f, (EditModal.submit f).2 = Some updated ->
        Squad.id updated = Squad.id (EditModal.squad f)
        /\ Squad.leaderPin updated = Squad.leaderPin (EditModal.squad f)
        /\ Squad.createdAt updated = Squad.createdAt (EditModal.squad f)
        /\ Squad.members updated = EditModal.members f).
Proof.
  split; [done|]. split.
  { unfold saveEditPayload. rewrite dom_list_to_map_L. done. }
  split; [by destruct updated|].
  split; [by destruct updated|].
  split; [by destruct r|].
  split.
  { simpl. destruct r as [|newId now]; simpl.
    - induction (Store.squads (MainApp.store w)) as [|old l IH]; constructor; auto.
      apply (updateRow_keeps Store.Refused).
    - apply Forall2_fmap_r.
      induction (Store.squads (MainApp.store w)) as [|old l IH]; constructor; auto.
      apply (updateRow_keeps (Store.Applied newId now)). }
  split.
  { intros newId now old -> Hin Hid. simpl.
    exists (Store.updateRow (saveEditPayload updated) (Squad.id updated) old).
    split; [by apply list_elem_of_fmap_2|].
    unfold Store.updateRow. rewrite decide_True by done.
    rewrite writeRow_saveEditPayload. simpl. unfold editWrites. simpl. done. }
  intros f Hf. apply EditModal_submit_Some in Hf. tauto.
Qed.

Lemma saveEdit_frame_witness :
  (demoRow ∈ Store.squads (MainApp.store demoApp)
   /\ DBSquad.id demoRow = Squad.id demoSquad)
  /\ exists new,
       new ∈ Store.squads
               (MainApp.store
                  (MainApp.saveEdit (Store.Applied (js "id-2") (js "2025-06-02T08:00:00Z"))
                     demoSquad demoApp))
       /\ DBSquad.id new = DBSquad.id demoRow
       /\ editWrites demoSquad new.
Proof.
  assert (Hin : demoRow ∈ Store.squads (MainApp.store demoApp)) by apply list_elem_of_here.
  split; [split; [exact Hin | reflexivity]|].
  destruct (saveEdit_frame (Store.Applied (js "id-2") (js "2025-06-02T08:00:00Z"))
              demoSquad demoApp) as (_ & _ & _ & _ & _ & _ & Hw & _).
  exact (Hw _ _ demoRow eq_refl Hin eq_refl).
Defined.

(** C1, as stated, fails: the payload of [saveEdit] does carry
    [leader_pin], and an edit handed a squad with another PIN overwrites
    the stored one. *)
Lemma saveEdit_leader_pin_counterexample :
  ~ (saveEditPayload demoRepinned !! "leader_pin" = None)
  /\ storedPins
       (MainApp.store
          (MainApp.saveEdit (Store.Applied (js "id-2") (js "2025-06-02T08:00:00Z"))
             demoRepinned demoApp))
     <> storedPins (MainApp.store demoApp).
Proof.
  split.
  - vm_compute. discriminate.
  - vm_compute. discriminate.
Qed.

(** C5: for an id found in the in-memory list, [deleteSquad] with a PIN
    other than the squad's emits the error status "PIN is incorrect" and
    issues no request (store, request log and local state are unchanged);
    with the squad's PIN it issues one delete-by-id request and emits the
    success status whatever the store answers, even when the store refuses
    the request; the in-memory list is not patched. *)
Theorem deleteSquad_pin_gate (r : Store.Reply) (id pin : jsstring)
    (w : MainApp.t) (s : Squad.t) :
  MainApp.findSquad id w = Some s ->
  (pin <> Squad.leaderPin s ->
     MainApp.deleteSquad r id pin w
       = MainApp.setToast Toast.error "PIN is incorrect" w
     /\ MainApp.toast (MainApp.deleteSquad r id pin w)
        = Some (Toast.mk Toast.error "PIN is incorrect")
     /\ MainApp.sent (MainApp.deleteSquad r id pin w) = MainApp.sent w
     /\ MainApp.store (MainApp.deleteSquad r id pin w) = MainApp.store w
     /\ MainApp.squads (MainApp.deleteSquad r id pin w) = MainApp.squads w)
  /\ (pin = Squad.leaderPin s ->
      MainApp.sent (MainApp.deleteSquad r id pin w)
        = MainApp.sent w ++ [Store.DeleteSquad id]
      /\ MainApp.store (MainApp.deleteSquad r id pin w)
         = Store.exec r (Store.DeleteSquad id) (MainApp.store w)
      /\ MainApp.toast (MainApp.deleteSquad r id pin w)
         = Some (Toast.mk Toast.success "Squad deleted")
      /\ MainApp.toast (MainApp.deleteSquad Store.Refused id pin w)
         = Some (Toast.mk Toast.success "Squad deleted")
      /\ MainApp.store (MainApp.deleteSquad Store.Refused id pin w) = MainApp.store w
      /\ MainApp.squads (MainApp.deleteSquad r id pin w) = MainApp.squads w).
Proof.
  intros Hfind. unfold MainApp.deleteSquad. rewrite Hfind. split.
  - intros Hne. rewrite bool_decide_eq_true_2 by done. done.
  - intros Heq. rewrite bool_decide_eq_false_2 by (intros H; by apply H). done.
Qed.

Lemma deleteSquad_pin_gate_witness :
  MainApp.findSquad (js "a1") demoApp = Some demoSquad
  /\ (js "000000" <> Squad.leaderPin demoSquad
      /\ MainApp.toast (MainApp.deleteSquad Store.Refused (js "a1") (js "000000") demoApp)
         = Some (Toast.mk Toast.error "PIN is incorrect")
      /\ MainApp.sent (MainApp.deleteSquad Store.Refused (js "a1") (js "000000") demoApp)
         = [])
  /\ (js "111111" = Squad.leaderPin demoSquad
      /\ MainApp.sent (MainApp.deleteSquad Store.Refused (js "a1") (js "111111") demoApp)
         = [Store.DeleteSquad (js "a1")]
      /\ MainApp.toast (MainApp.deleteSquad Store.Refused (js "a1") (js "111111") demoApp)
         = Some (Toast.mk Toast.success "Squad deleted")).
Proof.
  assert (Hfind : MainApp.findSquad (js "a1") demoApp = Some demoSquad) by reflexivity.
  assert (Hne : js "000000" <> Squad.leaderPin demoSquad) by (vm_compute; discriminate).
  split; [exact Hfind|]. split.
  - destruct (deleteSquad_pin_gate Store.Refused (js "a1") (js "000000") demoApp
                demoSquad Hfind) as [Hbad _].
    destruct (Hbad Hne) as (_ & Ht & Hs & _). split; [exact Hne|]. split; assumption.
  - destruct (deleteSquad_pin_gate Store.Refused (js "a1") (js "111111") demoApp
                demoSquad Hfind) as [_ Hgood].
    destruct (Hgood eq_refl) as (Hs & _ & Ht & _). split; [reflexivity|]. split; assumption.
Defined.

(** C8: for an id that no squad of the in-memory list has, [deleteSquad]
    changes nothing at all: no request, no status; [startEdit] on the same
    id emits the error status "Not found", and issues no request either. *)
Theorem deleteSquad_unknown_id_silent (r : Store.Reply) (id pin : jsstring)
    (w : MainApp.t) :
  id ∉ (Squad.id <$> MainApp.squads w) ->
  MainApp.deleteSquad r id pin w = w
  /\ MainApp.sent (MainApp.deleteSquad r id pin w) = MainApp.sent w
  /\ MainApp.toast (MainApp.deleteSquad r id pin w) = MainApp.toast w
  /\ MainApp.startEdit id pin w = MainApp.setToast Toast.error "Not found" w
  /\ MainApp.toast (MainApp.startEdit id pin w)
     = Some (Toast.mk Toast.error "Not found")
  /\ MainApp.sent (MainApp.startEdit id pin w) = MainApp.sent w
  /\ MainApp.editTarget (MainApp.startEdit id pin w) = MainApp.editTarget w.
Proof.
  intros Hid. apply findSquad_None in Hid.
  unfold MainApp.deleteSquad, MainApp.startEdit. rewrite Hid. done.
Qed.

Lemma deleteSquad_unknown_id_silent_witness :
  (js "zz" ∉ (Squad.id <$> MainApp.squads demoApp))
  /\ MainApp.deleteSquad (Store.Applied [] []) (js "zz") (js "111111") demoApp = demoApp
  /\ MainApp.toast (MainApp.startEdit (js "zz") (js "111111") demoApp)
     = Some (Toast.mk Toast.error "Not found").
Proof.
  assert (Hid : js "zz" ∉ (Squad.id <$> MainApp.squads demoApp)).
  { apply findSquad_None. reflexivity. }
  split; [exact Hid|].
  destruct (deleteSquad_unknown_id_silent (Store.Applied [] []) (js "zz") (js "111111")
              demoApp Hid) as (Hd & _ & _ & _ & Ht & _).
  split; assumption.
Defined.

(** ** The mail relay *)

(** C7: the relay answers a method other than POST with 405; a POST whose
    body has no [email] (or a falsy one) with 400; a POST with an email
    when no API key is configured (unset or empty) with 500; with a key,
    500 when the call to the provider throws and otherwise 200 with the
    provider's JSON as the body.  No call is made to the provider in the
    first three cases. *)
Theorem handler_status (apiKey : option jsstring)
    (provider : Relay.Call -> Relay.Fetched) (req : Relay.Request) :
  (Relay.method req <> js "POST" ->
     Relay.status (Relay.handler apiKey provider req) = 405
     /\ Relay.calls (Relay.handler apiKey provider req) = [])
  /\ (Relay.method req = js "POST" ->
      Relay.field "email" (Relay.body req) = None ->
      Relay.status (Relay.handler apiKey provider req) = 400
      /\ Relay.sentBody (Relay.handler apiKey provider req)
         = Relay.messageBody "Missing email"
      /\ Relay.calls (Relay.handler apiKey provider req) = [])
  /\ (forall to,
        Relay.method req = js "POST" ->
        Relay.field "email" (Relay.body req) = Some to ->
        Relay.truthy to = false ->
        Relay.status (Relay.handler apiKey provider req) = 400
        /\ Relay.calls (Relay.handler apiKey provider req) = [])
  /\ (forall to,
        Relay.method req = js "POST" ->
        Relay.field "email" (Relay.body req) = Some to ->
        Relay.truthy to = true ->
        (apiKey = None \/ apiKey = Some [] ->
           Relay.status (Relay.handler apiKey provider req) = 500
           /\ Relay.calls (Relay.handler apiKey provider req) = [])
        /\ (forall key,
              apiKey = Some key -> key <> [] ->
              Relay.calls (Relay.handler apiKey provider req)
                = [Relay.outgoing key to (Relay.field "subject" (Relay.body req))
                     (Relay.field "message" (Relay.body req))]
              /\ (provider
                    (Relay.outgoing key to (Relay.field "subject" (Relay.body req))
                       (Relay.field "message" (Relay.body req))) = Relay.Throws ->
                  Relay.status (Relay.handler apiKey provider req) = 500)
              /\ (forall data,
                    provider
                      (Relay.outgoing key to (Relay.field "subject" (Relay.body req))
                         (Relay.field "message" (Relay.body req))) = Relay.Json data ->
                    Relay.status (Relay.handler apiKey provider req) = 200
                    /\ Relay.sentBody (Relay.handler apiKey provider req) = data))).
Proof.
  unfold Relay.handler. split.
  { intros Hm. rewrite bool_decide_eq_true_2 by done. done. }
  split.
  { intros Hm He. rewrite bool_decide_eq_false_2 by (intros H; by apply H).
    rewrite He. done. }
  split.
  { intros to Hm He Ht. rewrite bool_decide_eq_false_2 by (intros H; by apply H).
    rewrite He, Ht. done. }
  intros to Hm He Ht. rewrite bool_decide_eq_false_2 by (intros H; by apply H).
  rewrite He, Ht. simpl. split.
  - intros [-> | ->]; done.
  - intros key -> Hkey. apply isEmpty_false in Hkey. rewrite Hkey.
    split; [by destruct (provider _)|]. split.
    + intros ->. done.
    + intros data ->. done.
Qed.

Lemma handler_status_witness :
  (Relay.method demoMail = js "POST"
   /\ Relay.field "email" (Relay.body demoMail) = Some (JStr (js "bob@example.com"))
   /\ Relay.truthy (JStr (js "bob@example.com")) = true)
  /\ Relay.status (Relay.handler (Some (js "re_key")) (fun _ => Relay.Json demoReceipt)
                     demoMail) = 200
  /\ Relay.sentBody (Relay.handler (Some (js "re_key")) (fun _ => Relay.Json demoReceipt)
                       demoMail) = demoReceipt.
Proof.
  assert (Hm : Relay.method demoMail = js "POST") by reflexivity.
  assert (He : Relay.field "email" (Relay.body demoMail)
               = Some (JStr (js "bob@example.com"))) by reflexivity.
  assert (Ht : Relay.truthy (JStr (js "bob@example.com")) = true) by reflexivity.
  split; [split; [exact Hm | split; [exact He | exact Ht]]|].
  destruct (handler_status (Some (js "re_key")) (fun _ => Relay.Json demoReceipt) demoMail)
    as (_ & _ & _ & H).
  destruct (H _ Hm He Ht) as [_ Hkey].
  assert (Hne : js "re_key" <> []) by (vm_compute; discriminate).
  destruct (Hkey (js "re_key") eq_refl Hne) as (_ & _ & Hok).
  exact (Hok demoReceipt eq_refl).
Defined.

(** ** Validation of the post form *)

Lemma flag_is_Some b k' msg (e : gmap string string) k :
  is_Some (flag b k' msg e !! k) <-> (b = true /\ k = k') \/ is_Some (e !! k).
Proof.
  unfold flag. destruct b.
  - destruct (decide (k' = k)) as [<- | Hne].
    + rewrite lookup_insert_eq. split; [left | ]; eauto.
    + rewrite lookup_insert_ne by done. split; [by right |].
      intros [[_ ?] | ?]; [congruence | done].
  - split; [by right |]. intros [[? _] | ?]; [discriminate | done].
Qed.

Lemma noKeys_true (e : gmap string string) :
  noKeys e = true <-> forall k, ~ is_Some (e !! k).
Proof.
  unfold noKeys. rewrite Nat.eqb_eq, map_size_empty_iff. split.
  - intros -> k. rewrite lookup_empty. by intros [? ?].
  - intros H. apply map_empty. intros k. specialize (H k).
    destruct (e !! k); [exfalso; eauto | done].
Qed.

Lemma noKeys_false (e : gmap string string) :
  noKeys e = false <-> exists k, is_Some (e !! k).
Proof.
  split.
  - intros H. destruct (map_choose_or_empty e) as [(k & v & Hk) | ->].
    + exists k. eauto.
    + discriminate.
  - intros [k Hk]. destruct (noKeys e) eqn:He; [|done].
    by destruct (proj1 (noKeys_true e) He k).
Qed.

Lemma commonErrors_is_Some ti ln da tm lo ca ct cv k :
  is_Some (commonErrors ti ln da tm lo ca ct cv !! k) <->
    (k = "title" /\ trim ti = [])
    \/ (k = "leaderName" /\ trim ln = [])
    \/ (k = "date" /\ da = [])
    \/ (k = "time" /\ tm = [])
    \/ (k = "location" /\ trim lo = [])
    \/ (k = "capacity" /\ ca < 1)
    \/ (k = "contact" /\ contactMalformed ct cv).
Proof.
  unfold commonErrors, contactMalformed. rewrite !flag_is_Some, lookup_empty.
  rewrite !isEmpty_true, !andb_true_iff, !orb_true_iff, !negb_true_iff.
  rewrite <- !not_true_iff_false, emailRe_shaped, phoneRe_shaped.
  rewrite Z.eqb_eq, Z.ltb_lt.
  assert (Hs : is_Some (@None string) <-> False) by (split; [by intros [? ?] | done]).
  rewrite Hs.
  assert (He : ContactType_eqb ct Email = true <-> ct = Email) by (by destruct ct).
  assert (Hp : ContactType_eqb ct Phone = true <-> ct = Phone) by (by destruct ct).
  assert (Ht : ContactType_eqb ct Text = true <-> ct = Text) by (by destruct ct).
  rewrite He, Hp, Ht. intuition lia.
Qed.

Lemma validationErrors_is_Some f k :
  is_Some (PostForm.validationErrors f !! k) <-> fieldRejected f k.
Proof.
  unfold PostForm.validationErrors, fieldRejected.
  assert (Hpin : forall e : gmap string string,
    is_Some ((if isEmpty (trim (PostForm.leaderPin f))
              then <["leaderPin" := "PIN is required"]> e
              else if negb (Regex.test pinRe (trim (PostForm.leaderPin f)))
                   then <["leaderPin" := "PIN must be 6 digits"]> e
                   else e) !! k)
    <-> (k = "leaderPin" /\ ~ sixDigits (trim (PostForm.leaderPin f)))
        \/ is_Some (e !! k)).
  { intros e. rewrite <- pinRe_sixDigits.
    destruct (isEmpty (trim (PostForm.leaderPin f))) eqn:Hemp.
    - apply isEmpty_true in Hemp. rewrite Hemp.
      change (is_Some (flag true "leaderPin" "PIN is required" e !! k) <->
              k = "leaderPin" /\ Regex.test pinRe [] <> true \/ is_Some (e !! k)).
      rewrite flag_is_Some.
      assert (Regex.test pinRe [] <> true) by (vm_compute; discriminate).
      intuition.
    - destruct (Regex.test pinRe (trim (PostForm.leaderPin f))) eqn:Hpin; simpl.
      + intuition congruence.
      + change (is_Some (flag true "leaderPin" "PIN must be 6 digits" e !! k) <->
                k = "leaderPin" /\ false <> true \/ is_Some (e !! k)).
        rewrite flag_is_Some. intuition congruence. }
  rewrite Hpin, commonErrors_is_Some. tauto.
Qed.

Lemma wellFormed_iff f : wellFormed f <-> forall k, ~ fieldRejected f k.
Proof.
  unfold wellFormed, fieldRejected, contactMalformed. split.
  - intros (H1 & H2 & H3 & H4 & H5 & H6 & H7 & H8 & H9 & H10) k. intuition lia.
  - intros H.
    assert (Hem : PostForm.contactType f = Email ->
                  emailShaped (trim (PostForm.contactValue f))).
    { intros Hct. apply emailRe_shaped.
      destruct (Regex.test emailRe (trim (PostForm.contactValue f))) eqn:Ht; [done|].
      exfalso. apply (H "contact"). do 6 right. left. split; [done|].
      right. left. split; [done|]. rewrite <- emailRe_shaped. congruence. }
    assert (Hph : PostForm.contactType f = Phone \/ PostForm.contactType f = Text ->
                  phoneShaped (trim (PostForm.contactValue f))).
    { intros Hct. apply phoneRe_shaped.
      destruct (Regex.test phoneRe (trim (PostForm.contactValue f))) eqn:Ht; [done|].
      exfalso. apply (H "contact"). do 6 right. left. split; [done|].
      right. right. split; [done|]. rewrite <- phoneRe_shaped. congruence. }
    assert (Hpin : sixDigits (trim (PostForm.leaderPin f))).
    { apply pinRe_sixDigits.
      destruct (Regex.test pinRe (trim (PostForm.leaderPin f))) eqn:Ht; [done|].
      exfalso. apply (H "leaderPin"). do 7 right. split; [done|].
      rewrite <- pinRe_sixDigits. congruence. }
    assert (Hcap : 1 <= PostForm.capacity f).
    { destruct (Z_lt_le_dec (PostForm.capacity f) 1) as [Hlt | Hle]; [|done].
      exfalso. apply (H "capacity"). do 5 right. left. done. }
    refine (conj _ (conj _ (conj _ (conj _ (conj _ (conj Hcap
             (conj _ (conj Hem (conj Hph Hpin))))))))); intros Hbad.
    + apply (H "title"). left. done.
    + apply (H "leaderName"). right. left. done.
    + apply (H "date"). do 2 right. left. done.
    + apply (H "time"). do 3 right. left. done.
    + apply (H "location"). do 4 right. left. done.
    + apply (H "contact"). do 6 right. left. split; [done|]. left. done.
Qed.

(** C3: [validate()] of the post form returns false, and submission is
    blocked, exactly when some required field is empty or malformed, and
    the error object has a key exactly for each such field; it returns true
    exactly on a draft whose required fields are all present and
    well-formed.  An empty title gives an error keyed "title", the Email
    contact "not-an-email" one keyed "contact", the PIN "12a456" one keyed
    "leaderPin". *)
Theorem PostForm_validate_rejects_iff (f : PostForm.t) :
  PostForm.errors (PostForm.validate f).1 = PostForm.validationErrors f
  /\ ((PostForm.validate f).2 = false <-> exists k, fieldRejected f k)
  /\ (forall k, is_Some (PostForm.errors (PostForm.validate f).1 !! k)
                <-> fieldRejected f k)
  /\ ((PostForm.validate f).2 = true <-> wellFormed f)
  /\ ((PostForm.validate f).2 = false -> (PostForm.submit f).2 = None)
  /\ (PostForm.title f = [] ->
      is_Some (PostForm.errors (PostForm.validate f).1 !! "title")
      /\ (PostForm.validate f).2 = false)
  /\ (PostForm.contactType f = Email ->
      PostForm.contactValue f = js "not-an-email" ->
      is_Some (PostForm.errors (PostForm.validate f).1 !! "contact")
      /\ (PostForm.validate f).2 = false)
  /\ (PostForm.leaderPin f = js "12a456" ->
      is_Some (PostForm.errors (PostForm.validate f).1 !! "leaderPin")
      /\ (PostForm.validate f).2 = false).
Proof.
  assert (Hfalse : (PostForm.validate f).2 = false <-> exists k, fieldRejected f k).
  { unfold PostForm.validate; simpl. rewrite noKeys_false.
    by setoid_rewrite validationErrors_is_Some. }
  assert (Hkey : forall k, fieldRejected f k ->
            is_Some (PostForm.errors (PostForm.validate f).1 !! k)
            /\ (PostForm.validate f).2 = false).
  { intros k Hk. split; [by apply validationErrors_is_Some | apply Hfalse; eauto]. }
  split; [done|]. split; [exact Hfalse|].
  split; [intros k; apply validationErrors_is_Some|].
  split.
  { unfold PostForm.validate; simpl. rewrite noKeys_true, wellFormed_iff.
    by setoid_rewrite validationErrors_is_Some. }
  split.
  { unfold PostForm.submit, PostForm.validate; simpl. by intros ->. }
  split.
  { intros Ht. apply Hkey. left. by rewrite Ht. }
  split.
  - intros Hct Hcv. apply Hkey. do 6 right. left. split; [done|].
    right. left. split; [done|]. rewrite Hcv, <- emailRe_shaped.
    vm_compute. discriminate.
  - intros Hpin. apply Hkey. do 7 right. split; [done|].
    rewrite Hpin, <- pinRe_sixDigits. vm_compute. discriminate.
Qed.

Lemma demoForm_wellFormed : wellFormed demoForm.
Proof.
  unfold wellFormed.
  refine (conj _ (conj _ (conj _ (conj _ (conj _ (conj _ (conj _ (conj _ (conj _ _))))))))).
  - vm_compute; discriminate.
  - vm_compute; discriminate.
  - vm_compute; discriminate.
  - vm_compute; discriminate.
  - vm_compute; discriminate.
  - vm_compute; discriminate.
  - vm_compute; discriminate.
  - intros _. apply emailRe_shaped. vm_compute. reflexivity.
  - intros [H | H]; discriminate H.
  - apply pinRe_sixDigits. vm_compute. reflexivity.
Qed.

Lemma PostForm_validate_rejects_iff_witness :
  (PostForm.title demoNoTitle = []
   /\ is_Some (PostForm.errors (PostForm.validate demoNoTitle).1 !! "title")
   /\ (PostForm.validate demoNoTitle).2 = false)
  /\ (PostForm.contactType demoBadEmail = Email
      /\ PostForm.contactValue demoBadEmail = js "not-an-email"
      /\ is_Some (PostForm.errors (PostForm.validate demoBadEmail).1 !! "contact")
      /\ (PostForm.validate demoBadEmail).2 = false)
  /\ (PostForm.leaderPin demoBadPin = js "12a456"
      /\ is_Some (PostForm.errors (PostForm.validate demoBadPin).1 !! "leaderPin")
      /\ (PostForm.validate demoBadPin).2 = false)
  /\ (wellFormed demoForm /\ (PostForm.validate demoForm).2 = true).
Proof.
  split.
  { destruct (PostForm_validate_rejects_iff demoNoTitle) as (_ & _ & _ & _ & _ & H & _).
    split; [reflexivity | exact (H eq_refl)]. }
  split.
  { destruct (PostForm_validate_rejects_iff demoBadEmail)
      as (_ & _ & _ & _ & _ & _ & H & _).
    split; [reflexivity|]. split; [reflexivity | exact (H eq_refl eq_refl)]. }
  split.
  { destruct (PostForm_validate_rejects_iff demoBadPin)
      as (_ & _ & _ & _ & _ & _ & _ & H).
    split; [reflexivity | exact (H eq_refl)]. }
  destruct (PostForm_validate_rejects_iff demoForm) as (_ & _ & _ & H & _).
  split; [exact demoForm_wellFormed | exact (proj2 H demoForm_wellFormed)].
Defined.

(** ** The visible list *)

Section SortFacts.

Context {A : Type} (cmp : A -> A -> option Z).

Lemma insertSorted_perm x l : insertSorted cmp x l ≡ₚ x :: l.
Proof.
  induction l as [|y l IH]; simpl; [done|].
  destruct (after cmp x y); [|done].
  rewrite IH. apply Permutation_swap.
Qed.

Lemma sort_perm l : sort cmp l ≡ₚ l.
Proof.
  induction l as [|x l IH]; simpl; [done|].
  rewrite insertSorted_perm. by constructor.
Qed.

Lemma elem_of_sort x l : x ∈ sort cmp l <-> x ∈ l.
Proof. by rewrite sort_perm. Qed.

Context (g : A -> A) (Hg : forall a b, cmp (g a) (g b) = cmp a b).

Lemma insertSorted_fmap x l :
  insertSorted cmp (g x) (g <$> l) = g <$> insertSorted cmp x l.
Proof.
  induction l as [|y l IH]; simpl; [done|].
  unfold after. rewrite Hg. destruct (numLt (Some 0) (cmp x y)); simpl; [|done].
  f_equal. exact IH.
Qed.

Lemma sort_fmap l : sort cmp (g <$> l) = g <$> sort cmp l.
Proof.
  induction l as [|x l IH]; [done|].
  rewrite fmap_cons. cbn [sort foldr]. fold (sort cmp (g <$> l)). fold (sort cmp l).
  by rewrite IH, insertSorted_fmap.
Qed.

End SortFacts.

Lemma filter_fmap_invariant {A} (p : A -> bool) (g : A -> A) (l : list A) :
  (forall x, p (g x) = p x) ->
  List.filter p (g <$> l) = g <$> List.filter p l.
Proof.
  intros Hp. induction l as [|x l IH]; simpl; [done|].
  rewrite Hp. destruct (p x); simpl; [f_equal|]; exact IH.
Qed.

Lemma elem_of_filter_bool {A} (p : A -> bool) (l : list A) x :
  x ∈ List.filter p l <-> x ∈ l /\ p x = true.
Proof. rewrite !list_elem_of_In. apply filter_In. Qed.

Section VisibleFacts.

Variable getTime : jsstring -> option Z.
Variable toLowerCase : jsstring -> jsstring.

Lemma keep_split now f s :
  MainApp.keep getTime toLowerCase now f s
  = MainApp.keep getTime toLowerCase now (withOnlyUpcoming false f) s
    && (negb (Filters.onlyUpcoming f) || recent getTime now s).
Proof.
  unfold MainApp.keep, recent; simpl.
  destruct (Filters.onlyUpcoming f); simpl.
  - destruct (numLt _ _); simpl; [by rewrite andb_false_r | by rewrite andb_true_r].
  - by rewrite andb_true_r.
Qed.

Lemma recent_true now s : recent getTime now s = true <-> ~ staleAt getTime now s.
Proof.
  unfold recent, staleAt, numLt.
  destruct (instant getTime (Squad.date s) (Squad.time s)) as [t|]; simpl.
  - rewrite negb_true_iff, Z.ltb_ge. split.
    + intros Hle (t' & [= <-] & Hgt). lia.
    + intros Hn. destruct (Z_le_gt_dec (now - 86400000) t) as [|Hgt]; [done|].
      exfalso. apply Hn. exists t. split; [done | lia].
  - split; [intros _ (t & Ht & _); discriminate | done].
Qed.

Lemma keep_neutral now s :
  MainApp.keep getTime toLowerCase now (Filters.mk [] (js "All") false) s = true.
Proof. reflexivity. Qed.

Lemma instant_empty_time d :
  instant getTime d [] = instant getTime d (js "00:00").
Proof. reflexivity. Qed.

Lemma instant_atMidnight s :
  instant getTime (Squad.date (atMidnight s)) (Squad.time (atMidnight s))
  = instant getTime (Squad.date s) (Squad.time s).
Proof.
  unfold atMidnight. destruct (isEmpty (Squad.time s)) eqn:He; [|done].
  apply isEmpty_true in He. rewrite He. reflexivity.
Qed.

Lemma keep_atMidnight now f s :
  MainApp.keep getTime toLowerCase now f (atMidnight s)
  = MainApp.keep getTime toLowerCase now f s.
Proof.
  unfold MainApp.keep. rewrite instant_atMidnight.
  unfold atMidnight. by destruct (isEmpty (Squad.time s)).
Qed.

Lemma byUpcoming_atMidnight a b :
  byUpcoming getTime (atMidnight a) (atMidnight b) = byUpcoming getTime a b.
Proof. unfold byUpcoming. by rewrite !instant_atMidnight. Qed.

End VisibleFacts.

Lemma filter_filter_bool {A} (p q : A -> bool) (l : list A) :
  List.filter p (List.filter q l) = List.filter (fun x => q x && p x) l.
Proof.
  induction l as [|x l IH]; simpl; [done|].
  destruct (q x); simpl; [destruct (p x); [f_equal|]|]; exact IH.
Qed.

(** C4: with only-upcoming enabled, [visible] drops, from what the other
    filters let through, exactly the squads whose date and time give an
    instant more than 86,400,000 ms before [now]: a squad 86,400,001 ms in
    the past is excluded, one exactly 86,400,000 ms in the past is kept (as
    is a squad whose date does not parse, which has no instant). *)
Theorem visible_onlyUpcoming_threshold (getTime : jsstring -> option Z)
    (toLowerCase : jsstring -> jsstring) (now : Z) (f : Filters.t)
    (squads : list Squad.t) :
  Filters.onlyUpcoming f = true ->
  List.filter (MainApp.keep getTime toLowerCase now f) squads
    = List.filter (recent getTime now)
        (List.filter (MainApp.keep getTime toLowerCase now (withOnlyUpcoming false f))
           squads)
  /\ (forall s,
        s ∈ MainApp.visible getTime toLowerCase now f squads
        <-> s ∈ MainApp.visible getTime toLowerCase now (withOnlyUpcoming false f) squads
            /\ ~ staleAt getTime now s)
  /\ (Filters.query f = [] -> Filters.discipline f = js "All" ->
      forall s,
        s ∈ MainApp.visible getTime toLowerCase now f squads
        <-> s ∈ squads /\ ~ staleAt getTime now s)
  /\ (forall s,
        instant getTime (Squad.date s) (Squad.time s) = Some (now - 86400001) ->
        s ∉ MainApp.visible getTime toLowerCase now f squads)
  /\ (forall s,
        instant getTime (Squad.date s) (Squad.time s) = Some (now - 86400000) ->
        (s ∈ MainApp.visible getTime toLowerCase now f squads
         <-> s ∈ MainApp.visible getTime toLowerCase now (withOnlyUpcoming false f)
                   squads)).
Proof.
  intros Hup.
  assert (Hkeep : forall s,
            MainApp.keep getTime toLowerCase now f s
            = MainApp.keep getTime toLowerCase now (withOnlyUpcoming false f) s
              && recent getTime now s).
  { intros s. rewrite keep_split, Hup. done. }
  assert (Hmem : forall s,
            s ∈ MainApp.visible getTime toLowerCase now f squads
            <-> s ∈ MainApp.visible getTime toLowerCase now (withOnlyUpcoming false f)
                      squads
                /\ ~ staleAt getTime now s).
  { intros s. unfold MainApp.visible.
    rewrite !elem_of_sort, !elem_of_filter_bool, Hkeep, andb_true_iff, recent_true.
    tauto. }
  split.
  { rewrite filter_filter_bool. apply filter_ext. exact Hkeep. }
  split; [exact Hmem|]. split.
  { intros Hq Hd s. rewrite Hmem. unfold MainApp.visible.
    rewrite elem_of_sort, elem_of_filter_bool.
    destruct f as [q d u]; simpl in *; subst. rewrite keep_neutral. tauto. }
  split.
  - intros s Hs Hin. apply Hmem in Hin as [_ Hn]. apply Hn.
    exists (now - 86400001). split; [done | lia].
  - intros s Hs. rewrite Hmem. split; [tauto|]. intros Hin. split; [done|].
    intros (t & Ht & Hgt). rewrite Hs in Ht. injection Ht as <-. lia.
Qed.

Lemma visible_onlyUpcoming_threshold_witness :
  Filters.onlyUpcoming demoFilters = true
  /\ (instant demoClock (Squad.date demoSquad) (Squad.time demoSquad)
        = Some (86400001 - 86400001)
      /\ demoSquad ∉ MainApp.visible demoClock (fun s => s) 86400001 demoFilters
                       [demoSquad])
  /\ (instant demoClock (Squad.date demoSquad) (Squad.time demoSquad)
        = Some (86400000 - 86400000)
      /\ demoSquad ∈ MainApp.visible demoClock (fun s => s) 86400000 demoFilters
                       [demoSquad]).
Proof.
  split; [reflexivity|]. split.
  - destruct (visible_onlyUpcoming_threshold demoClock (fun s => s) 86400001
                demoFilters [demoSquad] eq_refl) as (_ & _ & _ & Hout & _).
    split; [reflexivity | exact (Hout demoSquad eq_refl)].
  - destruct (visible_onlyUpcoming_threshold demoClock (fun s => s) 86400000
                demoFilters [demoSquad] eq_refl) as (_ & _ & _ & _ & Hin).
    split; [reflexivity|]. apply (Hin demoSquad eq_refl).
    apply list_elem_of_here.
Defined.

(** C10: a squad whose time is the empty string has the instant of its
    date at 00:00, the one computed from the string date + "T00:00"; so the
    comparator and the filter cannot tell it from the same squad timed
    "00:00", and the visible list of squads without a time is the visible
    list of the same squads timed "00:00". *)
Theorem empty_time_sorts_and_filters_as_midnight (getTime : jsstring -> option Z)
    (toLowerCase : jsstring -> jsstring) :
  (forall d, instant getTime d [] = getTime (d ++ js "T00:00"))
  /\ (forall d, instant getTime d [] = instant getTime d (js "00:00"))
  /\ (forall s,
        Squad.time (withTime [] s) = []
        /\ atMidnight (withTime [] s) = withTime (js "00:00") s)
  /\ (forall a b,
        byUpcoming getTime (withTime [] a) b
          = byUpcoming getTime (withTime (js "00:00") a) b
        /\ byUpcoming getTime b (withTime [] a)
           = byUpcoming getTime b (withTime (js "00:00") a))
  /\ (forall now f s,
        MainApp.keep getTime toLowerCase now f (withTime [] s)
        = MainApp.keep getTime toLowerCase now f (withTime (js "00:00") s))
  /\ (forall now f squads,
        MainApp.visible getTime toLowerCase now f (atMidnight <$> squads)
        = atMidnight <$> MainApp.visible getTime toLowerCase now f squads).
Proof.
  split; [done|]. split; [done|]. split; [done|]. split; [done|].
  split; [done|].
  intros now f squads. unfold MainApp.visible.
  rewrite (filter_fmap_invariant _ atMidnight squads)
    by apply (keep_atMidnight getTime toLowerCase).
  apply sort_fmap. apply byUpcoming_atMidnight.
Qed.

(** * Further properties *)

(** ** Sorting by a key *)

Section SortByKey.

Context {A : Type} (key : A -> option Z).

Local Abbreviation cmp := (keyCmp key).
Local Abbreviation le := (keyLe key).

Lemma after_false_le x y :
  is_Some (key x) -> is_Some (key y) -> after cmp x y = false -> le x y.
Proof.
  intros [tx Hx] [ty Hy]. unfold after, keyCmp, numSub, numLt. rewrite Hx, Hy.
  intros H. apply Z.ltb_ge in H. exists tx, ty. repeat split; auto. lia.
Qed.

Lemma after_true_le x y :
  is_Some (key x) -> is_Some (key y) -> after cmp x y = true -> le y x.
Proof.
  intros [tx Hx] [ty Hy]. unfold after, keyCmp, numSub, numLt. rewrite Hx, Hy.
  intros H. apply Z.ltb_lt in H. exists ty, tx. repeat split; auto. lia.
Qed.

Lemma le_after_false x y : le x y -> after cmp x y = false.
Proof.
  intros (tx & ty & Hx & Hy & Hle). unfold after, keyCmp, numSub, numLt.
  rewrite Hx, Hy. apply Z.ltb_ge. lia.
Qed.

Lemma le_trans x y z : le x y -> le y z -> le x z.
Proof.
  intros (tx & ty & Hx & Hy & H1) (ty' & tz & Hy' & Hz & H2).
  rewrite Hy in Hy'. injection Hy' as <-. exists tx, tz. repeat split; auto. lia.
Qed.

Lemma insertSorted_front x l :
  Forall (le x) l -> insertSorted cmp x l = x :: l.
Proof.
  intros H. destruct H as [|y l Hy _]; simpl; [done|].
  by rewrite (le_after_false _ _ Hy).
Qed.

Lemma insertSorted_sorted x l :
  is_Some (key x) -> Forall (fun y => is_Some (key y)) l ->
  Sorted.StronglySorted le l -> Sorted.StronglySorted le (insertSorted cmp x l).
Proof.
  intros Hx Hall Hs. induction Hs as [|y l Hs IH Hy]; simpl.
  - repeat constructor.
  - apply Forall_cons in Hall as [Hky Hall].
    destruct (after cmp x y) eqn:Haft.
    + constructor; [by apply IH|].
      rewrite insertSorted_perm. constructor; [|done].
      by apply after_true_le.
    + assert (Hxy : le x y) by (by apply after_false_le).
      constructor; [by constructor|]. constructor; [done|].
      eapply Forall_impl; [exact Hy|]. intros z Hz. by eapply le_trans.
Qed.

Lemma sort_sorted l :
  Forall (fun y => is_Some (key y)) l -> Sorted.StronglySorted le (sort cmp l).
Proof.
  induction 1 as [|x l Hx Hall IH]; simpl; [constructor|].
  apply insertSorted_sorted; [done| |done].
  by rewrite sort_perm.
Qed.

Lemma sort_sorted_id l : Sorted.StronglySorted le l -> sort cmp l = l.
Proof.
  induction 1 as [|x l Hs IH Hx]; simpl; [done|].
  fold (sort cmp l). rewrite IH. by apply insertSorted_front.
Qed.

Lemma after_false_trans x y z :
  after cmp x y = false -> le y z -> after cmp x z = false.
Proof.
  intros Haft (ty & tz & Hy & Hz & Hle). unfold after, keyCmp, numSub, numLt in *.
  rewrite Hy in Haft. rewrite Hz. destruct (key x) as [tx|]; [|done].
  apply Z.ltb_ge in Haft. apply Z.ltb_ge. lia.
Qed.

Lemma insertSorted_head x l :
  Forall (fun z => after cmp x z = false) l -> insertSorted cmp x l = x :: l.
Proof. intros H. destruct H as [|y l Hy _]; simpl; [done|]. by rewrite Hy. Qed.

Lemma filter_insertSorted (p : A -> bool) x l :
  Sorted.StronglySorted le l ->
  List.filter p (insertSorted cmp x l)
  = if p x then insertSorted cmp x (List.filter p l) else List.filter p l.
Proof.
  induction 1 as [|y l Hs IH Hy]; simpl.
  - by destruct (p x).
  - destruct (after cmp x y) eqn:Haft; simpl.
    + destruct (p y) eqn:Hpy; simpl.
      * rewrite IH. destruct (p x); [|done]. by rewrite Haft.
      * rewrite IH. done.
    + destruct (p x) eqn:Hpx; [|done].
      destruct (p y) eqn:Hpy; simpl.
      * by rewrite Haft.
      * symmetry. apply insertSorted_head.
        apply Forall_forall. intros z Hz. apply elem_of_filter_bool in Hz as [Hz _].
        rewrite Forall_forall in Hy.
        eapply after_false_trans; [exact Haft | by apply Hy].
Qed.

Lemma sort_filter (p : A -> bool) l :
  Forall (fun y => is_Some (key y)) l ->
  sort cmp (List.filter p l) = List.filter p (sort cmp l).
Proof.
  induction 1 as [|x l Hx Hall IH]; simpl; [done|].
  fold (sort cmp l). rewrite filter_insertSorted by (by apply sort_sorted).
  destruct (p x); simpl; [|done]. fold (sort cmp (List.filter p l)). by rewrite IH.
Qed.

End SortByKey.

(** ** The sync engine *)

Section LoadFacts.

Variable getTime : jsstring -> option Z.



Lemma load_squads_perm rows md w :
  MainApp.squads (load getTime rows md w)
  ≡ₚ attachMembers getTime (groupMembers getTime (default [] md)) <$> default [] rows.
Proof. unfold load; simpl. apply sort_perm. Qed.

End LoadFacts.




Lemma load_dated_sorted (getTime : jsstring -> option Z)
    (rows : option (list DBSquad.t)) (membersData : option (list DBMember.t))
    (w : MainApp.t) :
  rowsDated getTime (default [] rows) ->
  allDated getTime (MainApp.squads (load getTime rows membersData w))
  /\ Sorted.StronglySorted (notLater getTime)
       (MainApp.squads (load getTime rows membersData w)).
Proof.
  intros Hrows.
  assert (Hall : allDated getTime
            (attachMembers getTime (groupMembers getTime (default [] membersData))
               <$> default [] rows)).
  { unfold allDated. apply Forall_fmap. exact Hrows. }
  split.
  - unfold allDated. rewrite load_squads_perm. exact Hall.
  - unfold load; simpl. apply (sort_sorted (squadInstant getTime)). exact Hall.
Qed.

(** X3: when the date and time of every fetched row parse, the list
    [load] leaves is in ascending order of instant. *)
Theorem load_sorted (getTime : jsstring -> option Z)
    (rows : option (list DBSquad.t)) (membersData : option (list DBMember.t))
    (w : MainApp.t) :
  rowsDated getTime (default [] rows) ->
  allDated getTime (MainApp.squads (load getTime rows membersData w))
  /\ Sorted.StronglySorted (notLater getTime)
       (MainApp.squads (load getTime rows membersData w)).
Proof. apply load_dated_sorted. Qed.

Lemma load_sorted_witness :
  rowsDated demoMinutes (Store.squads demoStore)
  /\ Squad.id <$> MainApp.squads (reload demoMinutes (Store.squads demoStore) demoWorld)
     = [js "a1"; js "b2"]
  /\ Sorted.StronglySorted (notLater demoMinutes)
       (MainApp.squads (reload demoMinutes (Store.squads demoStore) demoWorld)).
Proof.
  assert (Hrows : rowsDated demoMinutes (Store.squads demoStore)).
  { repeat constructor; vm_compute; eauto. }
  split; [exact Hrows|]. split; [reflexivity|].
  exact (proj2 (load_sorted demoMinutes (Some (Store.squads demoStore)) _ demoWorld Hrows)).
Defined.

(** ** More on the visible list *)

Lemma visible_sorted_filter (getTime : jsstring -> option Z)
    (toLowerCase : jsstring -> jsstring) (now : Z) (f : Filters.t)
    (squads : list Squad.t) :
  allDated getTime squads ->
  Sorted.StronglySorted (notLater getTime)
    (MainApp.visible getTime toLowerCase now f squads)
  /\ MainApp.visible getTime toLowerCase now f squads
     = List.filter (MainApp.keep getTime toLowerCase now f)
         (sort (byUpcoming getTime) squads)
  /\ (Sorted.StronglySorted (notLater getTime) squads ->
      MainApp.visible getTime toLowerCase now f squads
      = List.filter (MainApp.keep getTime toLowerCase now f) squads).
Proof.
  intros Hall. unfold MainApp.visible.
  assert (Hsf : sort (byUpcoming getTime)
                  (List.filter (MainApp.keep getTime toLowerCase now f) squads)
                = List.filter (MainApp.keep getTime toLowerCase now f)
                    (sort (byUpcoming getTime) squads)).
  { apply (sort_filter (squadInstant getTime)). exact Hall. }
  split.
  { apply (sort_sorted (squadInstant getTime)).
    unfold allDated in Hall. rewrite Forall_forall in Hall. apply Forall_forall.
    intros s Hs. apply elem_of_filter_bool in Hs as [Hs _]. by apply Hall. }
  split; [exact Hsf|].
  intros Hs. rewrite Hsf. f_equal. by apply (sort_sorted_id (squadInstant getTime)).
Qed.

(** X4: when the date and time of every squad parse, [visible] is in
    ascending order of instant, and sorting after filtering is the same as
    filtering the sorted list; on a list already in that order, as [load]
    leaves it, [visible] is the plain filter: the squads kept stay in the
    order they had, ties included. *)
Theorem visible_sorted_stable (getTime : jsstring -> option Z)
    (toLowerCase : jsstring -> jsstring) (now : Z) (f : Filters.t)
    (squads : list Squad.t) :
  allDated getTime squads ->
  Sorted.StronglySorted (notLater getTime)
    (MainApp.visible getTime toLowerCase now f squads)
  /\ MainApp.visible getTime toLowerCase now f squads
     = List.filter (MainApp.keep getTime toLowerCase now f)
         (sort (byUpcoming getTime) squads)
  /\ (Sorted.StronglySorted (notLater getTime) squads ->
      MainApp.visible getTime toLowerCase now f squads
      = List.filter (MainApp.keep getTime toLowerCase now f) squads).
Proof. apply visible_sorted_filter. Qed.

Lemma visible_sorted_stable_witness :
  allDated demoMinutes [demoLate; demoSquad]
  /\ Squad.id <$> MainApp.visible demoMinutes (fun s => s) 0 demoFilters
                    [demoLate; demoSquad]
     = [js "a1"; js "b2"]
  /\ Sorted.StronglySorted (notLater demoMinutes)
       (MainApp.visible demoMinutes (fun s => s) 0 demoFilters [demoLate; demoSquad]).
Proof.
  assert (Hall : allDated demoMinutes [demoLate; demoSquad]).
  { repeat constructor; vm_compute; eauto. }
  split; [exact Hall|]. split; [reflexivity|].
  exact (proj1 (visible_sorted_stable demoMinutes (fun s => s) 0 demoFilters _ Hall)).
Defined.

(** X5: in the running application the list comes from [load], so when
    the dates of the fetched rows parse, [visible] shows the loaded squads
    that pass the filters, in the order [load] gave them. *)
Theorem visible_after_load (getTime : jsstring -> option Z)
    (toLowerCase : jsstring -> jsstring) (now : Z) (f : Filters.t)
    (rows : option (list DBSquad.t)) (membersData : option (list DBMember.t))
    (w : MainApp.t) :
  rowsDated getTime (default [] rows) ->
  MainApp.visible getTime toLowerCase now f
    (MainApp.squads (load getTime rows membersData w))
  = List.filter (MainApp.keep getTime toLowerCase now f)
      (MainApp.squads (load getTime rows membersData w)).
Proof.
  intros Hrows.
  destruct (load_dated_sorted getTime rows membersData w Hrows) as [Hall Hs].
  destruct (visible_sorted_filter getTime toLowerCase now f _ Hall) as (_ & _ & H).
  exact (H Hs).
Qed.

Lemma visible_after_load_witness :
  rowsDated demoMinutes (Store.squads demoStore)
  /\ Squad.id <$> MainApp.visible demoMinutes (fun s => s) 0
                    (Filters.mk [] (js "Trap") true)
                    (MainApp.squads
                       (reload demoMinutes (Store.squads demoStore) demoWorld))
     = Squad.id <$> List.filter
                      (MainApp.keep demoMinutes (fun s => s) 0
                         (Filters.mk [] (js "Trap") true))
                      (MainApp.squads
                         (reload demoMinutes (Store.squads demoStore) demoWorld)).
Proof.
  assert (Hrows : rowsDated demoMinutes (Store.squads demoStore)).
  { repeat constructor; vm_compute; eauto. }
  split; [exact Hrows|].
  unfold reload.
  rewrite (visible_after_load demoMinutes (fun s => s) 0 (Filters.mk [] (js "Trap") true)
             (Some (Store.squads demoStore)) _ demoWorld Hrows).
  reflexivity.
Defined.

Lemma isPrefix_true q s : isPrefix q s = true <-> exists post, s = q ++ post.
Proof.
  revert s. induction q as [|a q IH]; intros s; simpl.
  - split; [eauto | done].
  - destruct s as [|b s].
    + split; [discriminate | intros [post H]; discriminate].
    + rewrite andb_true_iff, N.eqb_eq, IH. split.
      * intros [-> [post ->]]. eauto.
      * intros [post [= -> ->]]. eauto.
Qed.

Lemma includes_true hay q :
  includes hay q = true <-> exists pre post, hay = pre ++ q ++ post.
Proof.
  induction hay as [|c hay IH]; simpl.
  - rewrite orb_false_r, isPrefix_true. split.
    + intros [post H]. by exists [], post.
    + intros (pre & post & H). destruct pre; simpl in H.
      * eauto.
      * discriminate.
  - rewrite orb_true_iff, isPrefix_true, IH. split.
    + intros [[post H] | (pre & post & ->)].
      * by exists [], post.
      * by exists (c :: pre), post.
    + intros (pre & post & H). destruct pre as [|c' pre]; simpl in H.
      * left. eauto.
      * injection H as -> ->. right. eauto.
Qed.

Lemma length_filter_le {A} (p : A -> bool) (l : list A) :
  (length (List.filter p l) <= length l)%nat.
Proof.
  induction l as [|x l IH]; simpl; [done|]. destruct (p x); simpl; lia.
Qed.

Lemma keep_discipline getTime toLowerCase now f s :
  MainApp.keep getTime toLowerCase now f s = true ->
  Filters.discipline f = js "All" \/ Squad.discipline s = Filters.discipline f.
Proof.
  unfold MainApp.keep. destruct (_ && numLt _ _); [discriminate|].
  case_bool_decide as Hall; [|by left]. case_bool_decide as Hd; [discriminate|].
  intros _. right. destruct (decide (Squad.discipline s = Filters.discipline f)); [done|].
  by destruct Hd.
Qed.

(** X6: [visible] only narrows the list: every squad it shows is one of
    the list and passes the filter callback, it shows no more squads than
    the list has, with a discipline other than "All" selected every squad
    shown has exactly that discipline, and with no query, "All" and the
    toggle off it shows all of them. *)
Theorem visible_only_narrows (getTime : jsstring -> option Z)
    (toLowerCase : jsstring -> jsstring) (now : Z) (f : Filters.t)
    (squads : list Squad.t) :
  (forall s, s ∈ MainApp.visible getTime toLowerCase now f squads ->
     s ∈ squads
     /\ MainApp.keep getTime toLowerCase now f s = true
     /\ (Filters.discipline f <> js "All" ->
         Squad.discipline s = Filters.discipline f))
  /\ (length (MainApp.visible getTime toLowerCase now f squads) <= length squads)%nat
  /\ MainApp.visible getTime toLowerCase now (Filters.mk [] (js "All") false) squads
     ≡ₚ squads.
Proof.
  unfold MainApp.visible. split.
  { intros s Hs. rewrite elem_of_sort, elem_of_filter_bool in Hs.
    destruct Hs as [Hin Hk]. split; [done|]. split; [done|].
    intros Hne. by destruct (keep_discipline _ _ _ _ _ Hk). }
  split.
  { rewrite sort_perm. apply length_filter_le. }
  rewrite sort_perm. rewrite filter_all_true; [done|].
  apply Forall_forall. intros s _. apply keep_neutral.
Qed.

Lemma visible_only_narrows_witness :
  demoLate ∈ MainApp.visible demoMinutes (fun s => s) 0
               (Filters.mk [] (js "Trap") true) [demoLate; demoSquad]
  /\ Filters.discipline (Filters.mk [] (js "Trap") true) <> js "All"
  /\ Squad.discipline demoLate = js "Trap".
Proof.
  assert (Hin : demoLate ∈ MainApp.visible demoMinutes (fun s => s) 0
                  (Filters.mk [] (js "Trap") true) [demoLate; demoSquad]).
  { vm_compute. apply list_elem_of_further, list_elem_of_here. }
  assert (Hne : Filters.discipline (Filters.mk [] (js "Trap") true) <> js "All").
  { vm_compute. discriminate. }
  split; [exact Hin|]. split; [exact Hne|].
  destruct (visible_only_narrows demoMinutes (fun s => s) 0
              (Filters.mk [] (js "Trap") true) [demoLate; demoSquad]) as [H _].
  destruct (H demoLate Hin) as (_ & _ & Hd). exact (Hd Hne).
Defined.

Lemma keep_query getTime toLowerCase now f s :
  Filters.onlyUpcoming f = false ->
  Filters.discipline f = js "All" ->
  MainApp.keep getTime toLowerCase now f s
  = isEmpty (Filters.query f)
    || includes (toLowerCase (searchText s)) (toLowerCase (Filters.query f)).
Proof.
  intros Hup Hd. unfold MainApp.keep. rewrite Hup, Hd. simpl.
  fold (searchText s).
  destruct (isEmpty (Filters.query f)); simpl; [done|].
  by destruct (includes _ _).
Qed.

(** X7: with a non-empty query (the other filters open), a squad is shown
    exactly when the lower-cased query occurs as a substring of the
    lower-cased text "title location message leaderName" (the message
    counting as empty when absent); the date, time, discipline and contact
    are not searched.  With an empty query every squad passes. *)
Theorem query_matches_substring (getTime : jsstring -> option Z)
    (toLowerCase : jsstring -> jsstring) (now : Z) (f : Filters.t) (s : Squad.t) :
  Filters.onlyUpcoming f = false ->
  Filters.discipline f = js "All" ->
  (Filters.query f = [] -> MainApp.keep getTime toLowerCase now f s = true)
  /\ (Filters.query f <> [] ->
      (MainApp.keep getTime toLowerCase now f s = true
       <-> exists pre post,
             toLowerCase (searchText s)
             = pre ++ toLowerCase (Filters.query f) ++ post)).
Proof.
  intros Hup Hd. rewrite (keep_query _ _ _ _ _ Hup Hd). split.
  - intros ->. done.
  - intros Hq. apply isEmpty_false in Hq. rewrite Hq. simpl. apply includes_true.
Qed.

Lemma query_matches_substring_witness :
  (Filters.onlyUpcoming (Filters.mk (js "clays") (js "All") false) = false
   /\ Filters.discipline (Filters.mk (js "clays") (js "All") false) = js "All"
   /\ Filters.query (Filters.mk (js "clays") (js "All") false) <> [])
  /\ searchText demoSquad = js "Saturday " ++ js "clays" ++ js " Elm Creek  Ann"
  /\ MainApp.keep demoMinutes (fun s => s) 0
       (Filters.mk (js "clays") (js "All") false) demoSquad = true.
Proof.
  assert (Hq : Filters.query (Filters.mk (js "clays") (js "All") false) <> []).
  { vm_compute. discriminate. }
  split; [split; [reflexivity | split; [reflexivity | exact Hq]]|].
  split; [reflexivity|].
  destruct (query_matches_substring demoMinutes (fun s => s) 0
              (Filters.mk (js "clays") (js "All") false) demoSquad eq_refl eq_refl)
    as [_ H].
  apply (proj2 (H Hq)). exists (js "Saturday "), (js " Elm Creek  Ann"). reflexivity.
Defined.

(** ** Handlers followed by a reload *)


Lemma orUndefined_orNull {A} (x : optional A) : orUndefined (orNull x) = x.
Proof. by destruct x. Qed.


Lemma reload_row getTime rows w r :
  r ∈ rows ->
  attachMembers getTime
    (groupMembers getTime (membersIn (DBSquad.id <$> rows) (MainApp.store w))) r
  ∈ MainApp.squads (reload getTime rows w).
Proof.
  intros Hr. unfold reload. rewrite load_squads_perm. simpl.
  by apply list_elem_of_fmap_2.
Qed.

(** X8: [addSquad] switches to the browse tab and reports success whatever
    the store answers, and does not touch the in-memory list.  When the
    store applies the insert, the new row is appended with the store's id
    and the signed-in user (or null) as creator, and the next load shows a
    squad with that id and the draft's field values. *)
Theorem addSquad_then_reload (getTime : jsstring -> option Z)
    (user : option jsstring) (newId now : jsstring) (data : Draft.t)
    (w : MainApp.t) :
  (forall r,
     MainApp.tab (MainApp.addSquad user r data w) = browse
     /\ MainApp.toast (MainApp.addSquad user r data w)
        = Some (Toast.mk Toast.success "Squad posted")
     /\ MainApp.squads (MainApp.addSquad user r data w) = MainApp.squads w
     /\ MainApp.sent (MainApp.addSquad user r data w)
        = MainApp.sent w ++ [Store.InsertSquad (addSquadPayload user data)])
  /\ MainApp.store (MainApp.addSquad user Store.Refused data w) = MainApp.store w
  /\ (exists row,
        Store.squads (MainApp.store (MainApp.addSquad user (Store.Applied newId now) data w))
        = Store.squads (MainApp.store w) ++ [row]
        /\ DBSquad.id row = newId
        /\ DBSquad.created_at row = now
        /\ DBSquad.created_by row
           = match user with Some u => NotNull u | None => Null end)
  /\ (exists s,
        s ∈ MainApp.squads
              (reload getTime
                 (Store.squads
                    (MainApp.store (MainApp.addSquad user (Store.Applied newId now) data w)))
                 (MainApp.addSquad user (Store.Applied newId now) data w))
        /\ Squad.id s = newId
        /\ Squad.title s = Draft.title data
        /\ Squad.leaderName s = Draft.leaderName data
        /\ Squad.date s = Draft.date data
        /\ Squad.time s = Draft.time data
        /\ Squad.location s = Draft.location data
        /\ Squad.discipline s = Draft.discipline data
        /\ Squad.capacity s = Draft.capacity data
        /\ Squad.message s = Draft.message data
        /\ Squad.contact s = Draft.contact data
        /\ Squad.leaderPin s = Draft.leaderPin data
        /\ Squad.createdAt s = getTime now).
Proof.
  split; [done|]. split; [done|].
  assert (Hst : Store.squads
                  (MainApp.store (MainApp.addSquad user (Store.Applied newId now) data w))
                = Store.squads (MainApp.store w)
                  ++ [DBSquad.mk newId (Draft.title data) (Draft.leaderName data)
                        (Draft.date data) (Draft.time data) (Draft.location data)
                        (Draft.discipline data) (Draft.capacity data)
                        (orNull (Draft.message data)) (type (Draft.contact data))
                        (value (Draft.contact data)) (Draft.leaderPin data) now
                        (match user with Some u => NotNull u | None => Null end)]).
  { simpl. by rewrite insertRow_addSquadPayload. }
  split; [eexists; split; [exact Hst | done]|].
  eexists. split.
  - apply reload_row. rewrite Hst. apply elem_of_app. right. apply list_elem_of_here.
  - simpl. rewrite orUndefined_orNull. destruct (Draft.contact data). done.
Qed.





Lemma reload_ids getTime rows w :
  Squad.id <$> MainApp.squads (reload getTime rows w) ≡ₚ DBSquad.id <$> rows.
Proof.
  unfold reload. rewrite load_squads_perm. simpl. by rewrite <- list_fmap_compose.
Qed.

Lemma deleteSquad_right_pin r id pin w s :
  MainApp.findSquad id w = Some s ->
  pin = Squad.leaderPin s ->
  MainApp.deleteSquad r id pin w
  = MainApp.setToast Toast.success "Squad deleted"
      (MainApp.request r (Store.DeleteSquad id) w).
Proof.
  intros Hfind Hpin. unfold MainApp.deleteSquad. rewrite Hfind.
  by rewrite bool_decide_eq_false_2 by (intros H; by apply H).
Qed.

(** X10: after [deleteSquad] with the right PIN, if the store applies the
    delete no stored row has that id and a reload no longer lists the
    squad, the other rows being as before; if the store refuses it, the
    row is still there and a reload lists the squad again, although the
    status said "Squad deleted". *)
Theorem deleteSquad_then_reload (getTime : jsstring -> option Z)
    (newId now id pin : jsstring) (w : MainApp.t) (s : Squad.t) :
  MainApp.findSquad id w = Some s ->
  pin = Squad.leaderPin s ->
  Store.squads (MainApp.store (MainApp.deleteSquad (Store.Applied newId now) id pin w))
    = List.filter (fun row => negb (bool_decide (DBSquad.id row = id)))
        (Store.squads (MainApp.store w))
  /\ (id ∉ (DBSquad.id
              <$> Store.squads
                    (MainApp.store
                       (MainApp.deleteSquad (Store.Applied newId now) id pin w))))
  /\ (id ∉ (Squad.id
              <$> MainApp.squads
                    (reload getTime
                       (Store.squads
                          (MainApp.store
                             (MainApp.deleteSquad (Store.Applied newId now) id pin w)))
                       (MainApp.deleteSquad (Store.Applied newId now) id pin w))))
  /\ (id ∈ (DBSquad.id <$> Store.squads (MainApp.store w)) ->
      MainApp.toast (MainApp.deleteSquad Store.Refused id pin w)
        = Some (Toast.mk Toast.success "Squad deleted")
      /\ id ∈ (Squad.id
                 <$> MainApp.squads
                       (reload getTime
                          (Store.squads
                             (MainApp.store (MainApp.deleteSquad Store.Refused id pin w)))
                          (MainApp.deleteSquad Store.Refused id pin w)))).
Proof.
  intros Hfind Hpin.
  rewrite !(deleteSquad_right_pin _ _ _ _ _ Hfind Hpin).
  assert (Hgone : id ∉ (DBSquad.id
                          <$> List.filter
                                (fun row => negb (bool_decide (DBSquad.id row = id)))
                                (Store.squads (MainApp.store w)))).
  { intros Hin. apply list_elem_of_fmap in Hin as (row & Hid & Hrow).
    apply elem_of_filter_bool in Hrow as [_ Hne].
    apply negb_true_iff, bool_decide_eq_false in Hne. by apply Hne. }
  split; [done|]. split; [exact Hgone|]. split.
  - rewrite reload_ids. exact Hgone.
  - intros Hin. split; [done|]. rewrite reload_ids. exact Hin.
Qed.

Lemma deleteSquad_then_reload_witness :
  (MainApp.findSquad (js "a1") demoApp = Some demoSquad
   /\ js "111111" = Squad.leaderPin demoSquad)
  /\ (js "a1" ∉ (Squad.id
                   <$> MainApp.squads
                         (reload demoMinutes
                            (Store.squads
                               (MainApp.store
                                  (MainApp.deleteSquad (Store.Applied [] [])
                                     (js "a1") (js "111111") demoApp)))
                            (MainApp.deleteSquad (Store.Applied [] [])
                               (js "a1") (js "111111") demoApp)))).
Proof.
  split; [split; reflexivity|].
  exact (proj1 (proj2 (proj2 (deleteSquad_then_reload demoMinutes [] [] (js "a1")
                                (js "111111") demoApp demoSquad eq_refl eq_refl)))).
Defined.

(** ** The edit flow *)

Lemma findSquad_Some id w s :
  MainApp.findSquad id w = Some s -> s ∈ MainApp.squads w /\ Squad.id s = id.
Proof.
  unfold MainApp.findSquad. intros H. apply find_some in H as [Hin Hid].
  apply list_elem_of_In in Hin. by apply bool_decide_eq_true in Hid.
Qed.



Lemma saveEdit_store newId now updated w :
  Store.squads (MainApp.store (MainApp.saveEdit (Store.Applied newId now) updated w))
  = Store.updateRow (saveEditPayload updated) (Squad.id updated)
      <$> Store.squads (MainApp.store w).
Proof. done. Qed.

(** X12: the whole edit flow.  Once [startEdit] has accepted the PIN and
    the form, whatever was typed in it, passes validation, [saveEdit]
    closes the form and reports success whatever the store answers; when
    the store applies the update, every stored row with the squad's id
    gets the trimmed fields of the form (a blank message as null, a Phone
    or Text contact sanitised) and, as leader PIN, the PIN that was typed
    to open the form; its id, creation time and creator stay, and the rows
    of other squads are untouched. *)
Theorem edit_flow_writes_form (newId now id pin : jsstring) (w : MainApp.t)
    (s updated : Squad.t) (f : EditModal.t) :
  MainApp.findSquad id w = Some s ->
  pin = Squad.leaderPin s ->
  EditModal.squad f = s ->
  (EditModal.submit f).2 = Some updated ->
  (forall r,
     MainApp.editTarget (MainApp.saveEdit r updated w) = None
     /\ MainApp.toast (MainApp.saveEdit r updated w)
        = Some (Toast.mk Toast.success "Squad updated")
     /\ MainApp.squads (MainApp.saveEdit r updated w) = MainApp.squads w)
  /\ MainApp.store (MainApp.saveEdit Store.Refused updated w) = MainApp.store w
  /\ Store.squads (MainApp.store (MainApp.saveEdit (Store.Applied newId now) updated w))
     = (fun row => if decide (DBSquad.id row = id) then editedRow f row else row)
         <$> Store.squads (MainApp.store w)
  /\ (forall row,
        row ∈ Store.squads
                (MainApp.store (MainApp.saveEdit (Store.Applied newId now) updated w)) ->
        DBSquad.id row = id -> DBSquad.leader_pin row = pin).
Proof.
  intros Hfind Hpin Hsq Hsub.
  destruct (findSquad_Some _ _ _ Hfind) as [_ Hid].
  assert (Hupd : updated
    = Squad.mk (Squad.id s) (trim (EditModal.title f)) (trim (EditModal.leaderName f))
        (EditModal.date f) (EditModal.time f) (trim (EditModal.location f))
        (EditModal.discipline f) (EditModal.capacity f)
        (EditModal.trimmedOrUndefined (EditModal.message f))
        (submittedContact (EditModal.contactType f) (EditModal.contactValue f))
        (Squad.leaderPin s) (EditModal.members f) (Squad.createdAt s)).
  { revert Hsub. unfold EditModal.submit; simpl.
    destruct (noKeys (EditModal.validationErrors f)); simpl; [|discriminate].
    rewrite Hsq. by intros [= <-]. }
  assert (Hst : Store.squads
                  (MainApp.store (MainApp.saveEdit (Store.Applied newId now) updated w))
                = (fun row => if decide (DBSquad.id row = id) then editedRow f row else row)
                    <$> Store.squads (MainApp.store w)).
  { rewrite saveEdit_store. apply list_fmap_ext. intros _ row _.
    unfold Store.updateRow. rewrite writeRow_saveEditPayload, Hupd. simpl.
    rewrite Hid. destruct (decide (DBSquad.id row = id)); [|done].
    unfold editedRow. by rewrite Hsq. }
  split; [done|]. split; [done|]. split; [exact Hst|].
  intros row Hrow Hrid. rewrite Hst in Hrow.
  apply list_elem_of_fmap in Hrow as (old & -> & _).
  destruct (decide (DBSquad.id old = id)) as [_ | Hne].
  - simpl. by rewrite Hsq, Hpin.
  - by destruct Hne.
Qed.

Lemma edit_flow_writes_form_witness :
  (MainApp.findSquad (js "a1") demoApp = Some demoSquad
   /\ js "111111" = Squad.leaderPin demoSquad
   /\ EditModal.squad demoEditForm = demoSquad
   /\ (EditModal.submit demoEditForm).2 = Some demoEdited)
  /\ (DBSquad.title
        <$> Store.squads
              (MainApp.store
                 (MainApp.saveEdit (Store.Applied [] []) demoEdited demoApp)))
     = [js "Sunday clays"]
  /\ (DBSquad.leader_pin
        <$> Store.squads
              (MainApp.store
                 (MainApp.saveEdit (Store.Applied [] []) demoEdited demoApp)))
     = [js "111111"].
Proof.
  assert (Hsub : (EditModal.submit demoEditForm).2 = Some demoEdited)
    by (vm_compute; reflexivity).
  split; [split; [reflexivity | split; [reflexivity | split; [reflexivity | exact Hsub]]]|].
  destruct (edit_flow_writes_form [] [] (js "a1") (js "111111") demoApp demoSquad
              demoEdited demoEditForm eq_refl eq_refl eq_refl Hsub)
    as (_ & _ & Hst & _).
  rewrite Hst. split; vm_compute; reflexivity.
Defined.

Lemma EditModal_errors_is_Some f k :
  is_Some (EditModal.validationErrors f !! k) <-> editRejected f k.
Proof. apply commonErrors_is_Some. Qed.

(** X13: the edit form checks what the post form checks, the PIN apart:
    its [validate()] returns false, and [submit] hands nothing to
    [onSave], exactly when the title, leader name, date, time, location,
    capacity or contact is empty or malformed; the error object has a key
    exactly for each such field and never one for the PIN. *)
Theorem EditModal_validate_rejects_iff (f : EditModal.t) :
  ((EditModal.validate f).2 = false <-> exists k, editRejected f k)
  /\ (forall k, is_Some (EditModal.err (EditModal.validate f).1 !! k)
                <-> editRejected f k)
  /\ EditModal.err (EditModal.validate f).1 !! "leaderPin" = None
  /\ ((EditModal.validate f).2 = false -> (EditModal.submit f).2 = None)
  /\ ((EditModal.validate f).2 = true ->
      exists updated, (EditModal.submit f).2 = Some updated
                      /\ Squad.leaderPin updated = Squad.leaderPin (EditModal.squad f)).
Proof.
  split.
  { unfold EditModal.validate; simpl. rewrite noKeys_false.
    by setoid_rewrite EditModal_errors_is_Some. }
  split; [intros k; apply EditModal_errors_is_Some|].
  split.
  { destruct (EditModal.err (EditModal.validate f).1 !! "leaderPin") eqn:Hk; [|done].
    exfalso. assert (Hs : editRejected f "leaderPin").
    { apply EditModal_errors_is_Some. simpl in Hk. by rewrite Hk. }
    unfold editRejected in Hs. intuition discriminate. }
  split.
  - unfold EditModal.submit, EditModal.validate; simpl. by intros ->.
  - unfold EditModal.submit, EditModal.validate; simpl. intros ->. simpl. eauto.
Qed.

Lemma EditModal_validate_rejects_iff_witness :
  (EditModal.validate demoEditForm).2 = true
  /\ exists updated, (EditModal.submit demoEditForm).2 = Some updated
                     /\ Squad.leaderPin updated = js "111111".
Proof.
  assert (Hv : (EditModal.validate demoEditForm).2 = true) by (vm_compute; reflexivity).
  split; [exact Hv|].
  destruct (EditModal_validate_rejects_iff demoEditForm) as (_ & _ & _ & _ & H).
  exact (H Hv).
Defined.

(** ** A posted phone number against the edit form *)

Lemma trimStart_length s : (length (trimStart s) <= length s)%nat.
Proof.
  induction s as [|c s IH]; simpl; [done|]. destruct (isSpace c); simpl; lia.
Qed.

Lemma trim_length s : (length (trim s) <= length s)%nat.
Proof.
  unfold trim, trimEnd. rewrite length_reverse.
  etransitivity; [apply trimStart_length|]. rewrite length_reverse.
  apply trimStart_length.
Qed.

Lemma phoneShaped_length s : phoneShaped s -> (7 <= length s)%nat.
Proof.
  intros (pre & d & rest & -> & _ & _ & Hl & _). rewrite length_app. simpl. lia.
Qed.

(** X14: the post form validates the phone number as typed but stores it
    sanitised, and the edit form validates the stored value: when fewer
    than seven characters of a Phone or Text contact survive
    [sanitizePhone], a squad that was posted successfully cannot be saved
    from the edit form until its contact is retyped; the unchanged form
    fails validation under the key "contact". *)
Theorem posted_phone_can_fail_edit (f : PostForm.t) (d : Draft.t) (s : Squad.t) :
  (PostForm.submit f).2 = Some d ->
  PostForm.contactType f = Phone \/ PostForm.contactType f = Text ->
  Squad.contact s = Draft.contact d ->
  (length (sanitizePhone (PostForm.contactValue f)) < 7)%nat ->
  (EditModal.validate (EditModal.open s)).2 = false
  /\ is_Some (EditModal.err (EditModal.validate (EditModal.open s)).1 !! "contact")
  /\ (EditModal.submit (EditModal.open s)).2 = None.
Proof.
  intros Hd Hct Hc Hlen.
  apply PostForm_submit_Some in Hd as (_ & Hcontact & _).
  assert (Hrej : editRejected (EditModal.open s) "contact").
  { do 6 right. split; [done|]. simpl. rewrite Hc, Hcontact.
    right. right. split; [by destruct Hct as [-> | ->]; [left | right]|].
    intros Hshape. apply phoneShaped_length in Hshape.
    pose proof (trim_length
                  (value (submittedContact (PostForm.contactType f)
                            (PostForm.contactValue f)))) as Hle.
    rewrite (submittedContact_phone _ _ Hct) in Hshape, Hle. lia. }
  assert (Hfalse : (EditModal.validate (EditModal.open s)).2 = false).
  { unfold EditModal.validate; simpl. apply noKeys_false. exists "contact".
    by apply EditModal_errors_is_Some. }
  split; [exact Hfalse|]. split.
  - by apply EditModal_errors_is_Some.
  - revert Hfalse. unfold EditModal.submit, EditModal.validate; simpl. by intros ->.
Qed.

Lemma posted_phone_can_fail_edit_witness :
  ((PostForm.submit demoShortPhoneForm).2 = Some demoShortPhoneDraft
   /\ PostForm.contactType demoShortPhoneForm = Phone
   /\ Squad.contact demoShortPhoneSquad = Draft.contact demoShortPhoneDraft
   /\ (length (sanitizePhone (PostForm.contactValue demoShortPhoneForm)) < 7)%nat)
  /\ (EditModal.submit (EditModal.open demoShortPhoneSquad)).2 = None.
Proof.
  assert (Hd : (PostForm.submit demoShortPhoneForm).2 = Some demoShortPhoneDraft)
    by (vm_compute; reflexivity).
  assert (Hlen : (length (sanitizePhone (PostForm.contactValue demoShortPhoneForm)) < 7)%nat)
    by (vm_compute; lia).
  split; [split; [exact Hd | split; [reflexivity | split; [reflexivity | exact Hlen]]]|].
  destruct (posted_phone_can_fail_edit demoShortPhoneForm demoShortPhoneDraft
              demoShortPhoneSquad Hd (or_introl eq_refl) eq_refl Hlen) as (_ & _ & H).
  exact H.
Defined.

(** ** The PIN prompt and the join dialog *)

(** X15: the PIN prompt hands the typed PIN trimmed to [deleteSquad] and
    [startEdit], then clears and closes itself: white space typed around
    the right PIN does not matter, the delete is sent and the edit form
    opens. *)
Theorem PinAction_trims_pin (r : Store.Reply) (id : jsstring) (p : PinAction.t)
    (w : MainApp.t) (s : Squad.t) :
  MainApp.findSquad id w = Some s ->
  trim (PinAction.pin p) = Squad.leaderPin s ->
  (PinAction.confirm p).1 = PinAction.mk false []
  /\ MainApp.sent (MainApp.deleteSquad r id (PinAction.confirm p).2 w)
     = MainApp.sent w ++ [Store.DeleteSquad id]
  /\ MainApp.editTarget (MainApp.startEdit id (PinAction.confirm p).2 w) = Some s.
Proof.
  intros Hfind Hpin. split; [done|]. simpl.
  rewrite (deleteSquad_right_pin _ _ _ _ _ Hfind Hpin).
  split; [done|]. unfold MainApp.startEdit. rewrite Hfind.
  by rewrite bool_decide_eq_false_2 by (intros H; by apply H).
Qed.

Lemma PinAction_trims_pin_witness :
  (MainApp.findSquad (js "a1") demoApp = Some demoSquad
   /\ trim (PinAction.pin demoPrompt) = Squad.leaderPin demoSquad)
  /\ MainApp.sent (MainApp.deleteSquad Store.Refused (js "a1")
                     (PinAction.confirm demoPrompt).2 demoApp)
     = [Store.DeleteSquad (js "a1")].
Proof.
  assert (Hpin : trim (PinAction.pin demoPrompt) = Squad.leaderPin demoSquad)
    by (vm_compute; reflexivity).
  split; [split; [reflexivity | exact Hpin]|].
  destruct (PinAction_trims_pin Store.Refused (js "a1") demoPrompt demoApp demoSquad
              eq_refl Hpin) as (_ & H & _).
  exact H.
Defined.

Lemma joinSquadPayload_lookup id name note :
  joinSquadPayload id name note !! "squad_id" = Some (JStr id)
  /\ joinSquadPayload id name note !! "name" = Some (JStr name)
  /\ joinSquadPayload id name note !! "note" = Some (jsonOrNull note).
Proof. done. Qed.

(** X16: the join dialog hands nothing on, and shows "Name is required",
    exactly when the trimmed name is empty; otherwise it hands on the
    trimmed name and the trimmed note, and the member row sent for the
    squad the dialog is open on carries the note as a string, the empty
    string when none was typed, never null. *)
Theorem JoinModal_submit_spec (f : JoinModal.t) :
  ((JoinModal.submit f).2 = None <-> trim (JoinModal.name f) = [])
  /\ (trim (JoinModal.name f) = [] ->
      JoinModal.err (JoinModal.submit f).1 = "Name is required")
  /\ (forall n nt r w target,
        (JoinModal.submit f).2 = Some (n, nt) ->
        MainApp.joinTarget w = Some target ->
        n = trim (JoinModal.name f) /\ n <> []
        /\ nt = trim (JoinModal.note f)
        /\ exists p,
             MainApp.sent (onJoin r n nt w) = MainApp.sent w ++ [Store.InsertMember p]
             /\ p !! "squad_id" = Some (JStr (Squad.id target))
             /\ p !! "name" = Some (JStr (trim (JoinModal.name f)))
             /\ p !! "note" = Some (JStr (trim (JoinModal.note f)))).
Proof.
  unfold JoinModal.submit.
  destruct (isEmpty (trim (JoinModal.name f))) eqn:He; simpl.
  - apply isEmpty_true in He. split; [done|]. split; [done|]. intros; discriminate.
  - apply isEmpty_false in He. split; [split; [discriminate | done]|].
    split; [done|].
    intros n nt r w target [= <- <-] Ht. split; [done|]. split; [done|].
    split; [done|]. unfold onJoin. rewrite Ht.
    eexists. split; [reflexivity|]. apply joinSquadPayload_lookup.
Qed.

Lemma JoinModal_submit_spec_witness :
  ((JoinModal.submit demoJoinForm).2 = Some (js "Flo", [])
   /\ MainApp.joinTarget demoJoining = Some demoSquad)
  /\ exists p,
       MainApp.sent (onJoin Store.Refused (js "Flo") [] demoJoining)
       = [Store.InsertMember p]
       /\ p !! "squad_id" = Some (JStr (js "a1"))
       /\ p !! "note" = Some (JStr []).
Proof.
  assert (Hs : (JoinModal.submit demoJoinForm).2 = Some (js "Flo", []))
    by (vm_compute; reflexivity).
  split; [split; [exact Hs | reflexivity]|].
  destruct (JoinModal_submit_spec demoJoinForm) as (_ & _ & H).
  destruct (H (js "Flo") [] Store.Refused demoJoining demoSquad Hs eq_refl)
    as (_ & _ & _ & p & Hsent & Hid & _ & Hnote).
  exists p. split; [exact Hsent|]. split; [exact Hid | exact Hnote].
Defined.

(** ** More on the squad card *)

(** X17: the card counts a squad as full exactly when its capacity is at
    most the leader plus the roster, so also when it is over capacity; the
    spots left are never negative and are [capacity - used] while there is
    room; the button reads "Squad is full" exactly then.  A squad of
    capacity 1, which the forms accept, is full from the start: nobody can
    join it from the card. *)
Theorem SquadCard_full_iff (squad : Squad.t) :
  (SquadCard.full (SquadCard.render squad) = true
   <-> Squad.capacity squad <= 1 + Z.of_nat (length (Squad.members squad)))
  /\ 0 <= SquadCard.left (SquadCard.render squad)
  /\ SquadCard.left (SquadCard.render squad) + SquadCard.used (SquadCard.render squad)
     = Z.max (Squad.capacity squad) (SquadCard.used (SquadCard.render squad))
  /\ (SquadCard.joinLabel (SquadCard.render squad) = "Squad is full"
      <-> SquadCard.full (SquadCard.render squad) = true)
  /\ (Squad.capacity squad <= 1 ->
      SquadCard.full (SquadCard.render squad) = true
      /\ SquadCard.joinDisabled (SquadCard.render squad) = true).
Proof.
  unfold SquadCard.render; simpl.
  split; [rewrite Z.eqb_eq; lia|]. split; [lia|]. split; [lia|].
  split.
  { destruct (_ =? 0); split; intros H; done. }
  intros Hcap. assert (H : Z.max 0 (Squad.capacity squad
                              - (1 + Z.of_nat (length (Squad.members squad)))) = 0) by lia.
  rewrite H. done.
Qed.

Lemma SquadCard_full_iff_witness :
  Squad.capacity demoSolo <= 1
  /\ Squad.members demoSolo = []
  /\ SquadCard.joinDisabled (SquadCard.render demoSolo) = true.
Proof.
  assert (Hcap : Squad.capacity demoSolo <= 1) by (vm_compute; discriminate).
  split; [exact Hcap|]. split; [reflexivity|].
  destruct (SquadCard_full_iff demoSolo) as (_ & _ & _ & _ & H).
  exact (proj2 (H Hcap)).
Defined.

(** ** More on the mail relay *)

(** The handler, case by case. *)
Lemma handler_cases apiKey provider req :
  (Relay.method req <> js "POST"
   /\ Relay.handler apiKey provider req
      = Relay.mkResponse 405 (Relay.messageBody "Method not allowed") [])
  \/ (Relay.method req = js "POST"
      /\ (forall to, Relay.field "email" (Relay.body req) = Some to ->
                     Relay.truthy to = false)
      /\ Relay.handler apiKey provider req
         = Relay.mkResponse 400 (Relay.messageBody "Missing email") [])
  \/ (exists to,
        Relay.method req = js "POST"
        /\ Relay.field "email" (Relay.body req) = Some to
        /\ Relay.truthy to = true
        /\ ((forall key, apiKey = Some key -> key = [])
            /\ Relay.handler apiKey provider req
               = Relay.mkResponse 500
                   (Relay.messageBody "RESEND_API_KEY is not configured") []
            \/ exists key,
                 apiKey = Some key /\ key <> []
                 /\ (provider
                       (Relay.outgoing key to (Relay.field "subject" (Relay.body req))
                          (Relay.field "message" (Relay.body req))) = Relay.Throws
                     /\ Relay.handler apiKey provider req
                        = Relay.mkResponse 500
                            (Relay.messageBody "Failed to send email")
                            [Relay.outgoing key to
                               (Relay.field "subject" (Relay.body req))
                               (Relay.field "message" (Relay.body req))]
                     \/ exists data,
                          provider
                            (Relay.outgoing key to
                               (Relay.field "subject" (Relay.body req))
                               (Relay.field "message" (Relay.body req)))
                          = Relay.Json data
                          /\ Relay.handler apiKey provider req
                             = Relay.mkResponse 200 data
                                 [Relay.outgoing key to
                                    (Relay.field "subject" (Relay.body req))
                                    (Relay.field "message" (Relay.body req))]))).
Proof.
  unfold Relay.handler.
  destruct (decide (Relay.method req = js "POST")) as [Hm | Hm].
  2: { left. rewrite bool_decide_eq_true_2 by done. done. }
  right. rewrite bool_decide_eq_false_2 by (intros H; by apply H).
  destruct (Relay.field "email" (Relay.body req)) as [to|] eqn:He.
  2: { left. split; [done|]. split; [intros; discriminate | done]. }
  destruct (Relay.truthy to) eqn:Ht; simpl.
  2: { left. split; [done|]. split; [by intros ? [= <-] | done]. }
  right. exists to. split; [done|]. split; [done|]. split; [done|].
  destruct apiKey as [key|].
  2: { left. split; [intros; discriminate | done]. }
  destruct (isEmpty key) eqn:Hk.
  { apply isEmpty_true in Hk. left. split; [by intros ? [= <-] | done]. }
  apply isEmpty_false in Hk. right. exists key. split; [done|]. split; [done|].
  destruct (provider _) as [|data] eqn:Hp; [left | right]; eauto.
Qed.

(** X18: whatever the request, the relay answers with one of the statuses
    200, 400, 405 and 500 and calls the provider at most once; it calls
    it exactly when the method is POST, the email is truthy and the API
    key is non-empty.  A 200 answer carries what the provider returned to
    that one call; every other answer carries a body of the form
    [{message: ...}]. *)
Theorem handler_calls_provider_at_most_once (apiKey : option jsstring)
    (provider : Relay.Call -> Relay.Fetched) (req : Relay.Request) :
  (Relay.status (Relay.handler apiKey provider req) = 200
   \/ Relay.status (Relay.handler apiKey provider req) = 400
   \/ Relay.status (Relay.handler apiKey provider req) = 405
   \/ Relay.status (Relay.handler apiKey provider req) = 500)
  /\ (length (Relay.calls (Relay.handler apiKey provider req)) <= 1)%nat
  /\ (Relay.calls (Relay.handler apiKey provider req) <> []
      <-> Relay.method req = js "POST"
          /\ (exists to, Relay.field "email" (Relay.body req) = Some to
                         /\ Relay.truthy to = true)
          /\ (exists key, apiKey = Some key /\ key <> []))
  /\ (Relay.status (Relay.handler apiKey provider req) = 200 ->
      exists call,
        Relay.calls (Relay.handler apiKey provider req) = [call]
        /\ provider call = Relay.Json (Relay.sentBody (Relay.handler apiKey provider req)))
  /\ (Relay.status (Relay.handler apiKey provider req) <> 200 ->
      exists txt,
        Relay.sentBody (Relay.handler apiKey provider req) = Relay.messageBody txt).
Proof.
  destruct (handler_cases apiKey provider req)
    as [[Hm ->] | [(Hm & He & ->) | (to & Hm & He & Ht &
          [[Hk ->] | (key & -> & Hk & [[Hp ->] | (data & Hp & ->)])])]]; simpl.
  - split; [tauto|]. split; [lia|]. split; [split; [done | tauto]|].
    split; [discriminate | eauto].
  - split; [tauto|]. split; [lia|]. split.
    { split; [done|]. intros (_ & (to & Hto & Ht) & _).
      rewrite (He _ Hto) in Ht. discriminate. }
    split; [discriminate | eauto].
  - split; [tauto|]. split; [lia|]. split.
    { split; [done|]. intros (_ & _ & key & Hkey & Hne) _. apply Hne. by apply Hk. }
    split; [discriminate | eauto].
  - split; [tauto|]. split; [lia|]. split.
    { split; [intros _ | discriminate]. split; [done|]. split; eauto. }
    split; [discriminate | eauto].
  - split; [tauto|]. split; [lia|]. split.
    { split; [intros _ | discriminate]. split; [done|]. split; eauto. }
    split; [eauto | done].
Qed.

Lemma handler_calls_provider_at_most_once_witness :
  Relay.status (Relay.handler (Some (js "re_key")) (fun _ => Relay.Json demoReceipt)
                  demoMail) = 200
  /\ exists call,
       Relay.calls (Relay.handler (Some (js "re_key")) (fun _ => Relay.Json demoReceipt)
                      demoMail) = [call].
Proof.
  assert (Hs : Relay.status (Relay.handler (Some (js "re_key"))
                               (fun _ => Relay.Json demoReceipt) demoMail) = 200)
    by reflexivity.
  split; [exact Hs|].
  destruct (handler_calls_provider_at_most_once (Some (js "re_key"))
              (fun _ => Relay.Json demoReceipt) demoMail) as (_ & _ & _ & H & _).
  destruct (H Hs) as (call & Hc & _). exists call. exact Hc.
Defined.





(** ** What the post form hands on *)

Lemma PostForm_submit_cases f :
  ((PostForm.validate f).2 = false
   /\ PostForm.submit f = (PostForm.setErrors (PostForm.validationErrors f) f, None))
  \/ ((PostForm.validate f).2 = true
      /\ PostForm.validationErrors f = ∅
      /\ PostForm.submit f
         = (PostForm.mk [] [] [] [] [] (js "Sporting Clays") 4 [] Email [] [] ∅,
            Some (Draft.mk (trim (PostForm.title f)) (trim (PostForm.leaderName f))
                    (PostForm.date f) (PostForm.time f) (trim (PostForm.location f))
                    (PostForm.discipline f) (PostForm.capacity f)
                    (Defined (trim (PostForm.message f)))
                    (submittedContact (PostForm.contactType f) (PostForm.contactValue f))
                    (trim (PostForm.leaderPin f))))).
Proof.
  unfold PostForm.submit, PostForm.validate; simpl.
  destruct (noKeys (PostForm.validationErrors f)) eqn:Hk; simpl; [right | by left].
  assert (He : PostForm.validationErrors f = ∅).
  { unfold noKeys in Hk. apply Nat.eqb_eq in Hk. by apply map_size_empty_iff. }
  split; [done|]. split; [done|]. unfold PostForm.reset; simpl. by rewrite He.
Qed.

(** X20: when the post form hands a draft to [addSquad] the form was
    well-formed, the draft holds the trimmed title, leader name, location
    and PIN, a PIN of exactly six digits, a capacity of at least 1, and
    the form is back to its initial state with no errors shown; when it
    hands nothing on, the fields typed are all kept and at least one error
    is shown. *)
Theorem PostForm_submit_spec (f : PostForm.t) :
  (forall d, (PostForm.submit f).2 = Some d ->
     wellFormed f
     /\ Draft.title d = trim (PostForm.title f) /\ Draft.title d <> []
     /\ Draft.leaderName d = trim (PostForm.leaderName f)
     /\ Draft.location d = trim (PostForm.location f)
     /\ Draft.date d = PostForm.date f /\ Draft.time d = PostForm.time f
     /\ Draft.discipline d = PostForm.discipline f
     /\ Draft.capacity d = PostForm.capacity f /\ 1 <= Draft.capacity d
     /\ Draft.leaderPin d = trim (PostForm.leaderPin f) /\ sixDigits (Draft.leaderPin d)
     /\ (PostForm.submit f).1
        = PostForm.mk [] [] [] [] [] (js "Sporting Clays") 4 [] Email [] [] ∅)
  /\ ((PostForm.submit f).2 = None ->
      (PostForm.submit f).1 = PostForm.setErrors (PostForm.validationErrors f) f
      /\ PostForm.title (PostForm.submit f).1 = PostForm.title f
      /\ PostForm.contactValue (PostForm.submit f).1 = PostForm.contactValue f
      /\ PostForm.leaderPin (PostForm.submit f).1 = PostForm.leaderPin f
      /\ exists k, is_Some (PostForm.errors (PostForm.submit f).1 !! k)).
Proof.
  destruct (PostForm_submit_cases f) as [[Hv ->] | (Hv & He & ->)]; simpl.
  - split; [intros; discriminate|]. intros _. repeat split; try done.
    revert Hv. unfold PostForm.validate; simpl. apply noKeys_false.
  - split; [|intros; discriminate]. intros d [= <-]. simpl.
    assert (Hwf : wellFormed f).
    { apply wellFormed_iff. intros k Hk. apply validationErrors_is_Some in Hk.
      rewrite He, lookup_empty in Hk. by destruct Hk. }
    pose proof Hwf as (H1 & _ & _ & _ & _ & H6 & _ & _ & _ & H10).
    split; [exact Hwf|]. split; [done|]. split; [exact H1|].
    do 6 (split; [done|]). split; [exact H6|]. split; [done|].
    split; [exact H10 | done].
Qed.

Lemma PostForm_submit_spec_witness :
  (PostForm.submit demoPhoneForm).2 = Some demoPhoneDraft
  /\ sixDigits (Draft.leaderPin demoPhoneDraft)
  /\ PostForm.title (PostForm.submit demoPhoneForm).1 = [].
Proof.
  assert (Hd : (PostForm.submit demoPhoneForm).2 = Some demoPhoneDraft)
    by (vm_compute; reflexivity).
  split; [exact Hd|].
  destruct (PostForm_submit_spec demoPhoneForm) as [H _].
  destruct (H _ Hd) as (_ & _ & _ & _ & _ & _ & _ & _ & _ & _ & _ & Hpin & Hreset).
  split; [exact Hpin | by rewrite Hreset].
Defined.

Lemma saveEditPayload_message s :
  saveEditPayload s !! "message" = Some (jsonOrNull (Squad.message s)).
Proof. by destruct s. Qed.

Lemma addSquadPayload_message user d :
  addSquadPayload user d !! "message" = Some (jsonOrNull (Draft.message d)).
Proof. by destruct d. Qed.

(** X21: a blank message is stored differently by the two forms: the post
    form always sends the trimmed message as a string, the empty string
    when nothing was typed, while the edit form sends null for a message
    that is empty once trimmed and the trimmed string otherwise. *)
Theorem blank_message_post_vs_edit :
  (forall f d user,
     (PostForm.submit f).2 = Some d ->
     addSquadPayload user d !! "message" = Some (JStr (trim (PostForm.message f))))
  /\ (forall f s,
        (EditModal.submit f).2 = Some s ->
        saveEditPayload s !! "message"
        = Some (if isEmpty (trim (EditModal.message f)) then JNull
                else JStr (trim (EditModal.message f)))).
Proof.
  split.
  - intros f d user Hd. rewrite addSquadPayload_message.
    destruct (PostForm_submit_cases f) as [[_ H] | (_ & _ & H)];
      rewrite H in Hd; simpl in Hd; [discriminate|]. by injection Hd as <-.
  - intros f s Hs. rewrite saveEditPayload_message.
    revert Hs. unfold EditModal.submit, EditModal.validate; simpl.
    destruct (noKeys _); simpl; [|discriminate]. intros [= <-]. simpl.
    unfold EditModal.trimmedOrUndefined. by destruct (isEmpty _).
Qed.

Lemma blank_message_post_vs_edit_witness :
  ((PostForm.submit demoPhoneForm).2 = Some demoPhoneDraft
   /\ (EditModal.submit demoEditForm).2 = Some demoEdited)
  /\ addSquadPayload None demoPhoneDraft !! "message" = Some (JStr [])
  /\ saveEditPayload demoEdited !! "message" = Some JNull.
Proof.
  assert (Hd : (PostForm.submit demoPhoneForm).2 = Some demoPhoneDraft)
    by (vm_compute; reflexivity).
  assert (Hs : (EditModal.submit demoEditForm).2 = Some demoEdited)
    by (vm_compute; reflexivity).
  split; [split; [exact Hd | exact Hs]|].
  destruct blank_message_post_vs_edit as [Hpost Hedit].
  split; [exact (Hpost _ _ None Hd) | exact (Hedit _ _ Hs)].
Defined.

(** ** Posting, then deleting *)

Lemma addSquad_store_squads user newId now d w :
  Store.squads (MainApp.store (MainApp.addSquad user (Store.Applied newId now) d w))
  = Store.squads (MainApp.store w)
    ++ [DBSquad.mk newId (Draft.title d) (Draft.leaderName d) (Draft.date d)
          (Draft.time d) (Draft.location d) (Draft.discipline d) (Draft.capacity d)
          (orNull (Draft.message d)) (type (Draft.contact d)) (value (Draft.contact d))
          (Draft.leaderPin d) now
          (match user with Some u => NotNull u | None => Null end)].
Proof. simpl. by rewrite insertRow_addSquadPayload. Qed.

Lemma reload_squads_perm getTime rows w :
  MainApp.squads (reload getTime rows w)
  ≡ₚ attachMembers getTime
       (groupMembers getTime (membersIn (DBSquad.id <$> rows) (MainApp.store w)))
     <$> rows.
Proof. unfold reload. by rewrite load_squads_perm. Qed.

Lemma posted_squad_found getTime user newId now d w :
  newId ∉ (DBSquad.id <$> Store.squads (MainApp.store w)) ->
  exists s,
    MainApp.findSquad newId
      (reload getTime
         (Store.squads (MainApp.store (MainApp.addSquad user (Store.Applied newId now) d w)))
         (MainApp.addSquad user (Store.Applied newId now) d w)) = Some s
    /\ Squad.leaderPin s = Draft.leaderPin d.
Proof.
  intros Hfresh.
  set (w1 := MainApp.addSquad user (Store.Applied newId now) d w).
  set (w2 := reload getTime (Store.squads (MainApp.store w1)) w1).
  destruct (MainApp.findSquad newId w2) as [s|] eqn:Hfind.
  - exists s. split; [done|].
    apply findSquad_Some in Hfind as [Hin Hid].
    unfold w2 in Hin. rewrite reload_squads_perm in Hin.
    apply list_elem_of_fmap in Hin as (r0 & -> & Hr0).
    change (DBSquad.id r0 = newId) in Hid.
    unfold w1 in Hr0. rewrite addSquad_store_squads in Hr0.
    apply elem_of_app in Hr0 as [Hold | Hnew].
    + exfalso. apply Hfresh. rewrite <- Hid. by apply list_elem_of_fmap_2.
    + apply list_elem_of_singleton in Hnew. rewrite Hnew. done.
  - exfalso. apply findSquad_None in Hfind. apply Hfind.
    unfold w2. rewrite reload_ids. unfold w1. rewrite addSquad_store_squads.
    rewrite fmap_app. apply elem_of_app. right. apply list_elem_of_here.
Qed.

(** X22: a squad posted through the form can be deleted with the PIN
    typed when posting.  If the store applies the insert under an id no
    stored row has yet, then after the next load [deleteSquad] with that
    id and the trimmed PIN of the form sends the delete request, and with
    any other PIN it reports "PIN is incorrect" and sends nothing. *)
Theorem post_then_delete (getTime : jsstring -> option Z) (user : option jsstring)
    (newId now : jsstring) (r : Store.Reply) (f : PostForm.t) (d : Draft.t)
    (w : MainApp.t) :
  (PostForm.submit f).2 = Some d ->
  newId ∉ (DBSquad.id <$> Store.squads (MainApp.store w)) ->
  MainApp.sent
    (MainApp.deleteSquad r newId (trim (PostForm.leaderPin f))
       (reload getTime
          (Store.squads
             (MainApp.store (MainApp.addSquad user (Store.Applied newId now) d w)))
          (MainApp.addSquad user (Store.Applied newId now) d w)))
  = MainApp.sent w
    ++ [Store.InsertSquad (addSquadPayload user d); Store.DeleteSquad newId]
  /\ (forall pin,
        pin <> trim (PostForm.leaderPin f) ->
        MainApp.deleteSquad r newId pin
          (reload getTime
             (Store.squads
                (MainApp.store (MainApp.addSquad user (Store.Applied newId now) d w)))
             (MainApp.addSquad user (Store.Applied newId now) d w))
        = MainApp.setToast Toast.error "PIN is incorrect"
            (reload getTime
               (Store.squads
                  (MainApp.store (MainApp.addSquad user (Store.Applied newId now) d w)))
               (MainApp.addSquad user (Store.Applied newId now) d w))).
Proof.
  intros Hd Hfresh.
  destruct (posted_squad_found getTime user newId now d w Hfresh) as (s & Hfind & Hpin).
  apply PostForm_submit_Some in Hd as (_ & _ & Hdpin). rewrite Hdpin in Hpin.
  split.
  - rewrite (deleteSquad_right_pin _ _ _ _ _ Hfind (eq_sym Hpin)). simpl.
    by rewrite <- app_assoc.
  - intros pin Hne. unfold MainApp.deleteSquad. rewrite Hfind.
    rewrite bool_decide_eq_true_2 by congruence. done.
Qed.

Lemma post_then_delete_witness :
  ((PostForm.submit demoPhoneForm).2 = Some demoPhoneDraft
   /\ js "p9" ∉ (DBSquad.id <$> Store.squads (MainApp.store demoWorld)))
  /\ MainApp.sent
       (MainApp.deleteSquad Store.Refused (js "p9") (js "123456")
          (reload demoMinutes
             (Store.squads
                (MainApp.store
                   (MainApp.addSquad None (Store.Applied (js "p9") (js "2025-06-03T09:00:00Z"))
                      demoPhoneDraft demoWorld)))
             (MainApp.addSquad None (Store.Applied (js "p9") (js "2025-06-03T09:00:00Z"))
                demoPhoneDraft demoWorld)))
     = [Store.InsertSquad (addSquadPayload None demoPhoneDraft);
        Store.DeleteSquad (js "p9")].
Proof.
  assert (Hd : (PostForm.submit demoPhoneForm).2 = Some demoPhoneDraft)
    by (vm_compute; reflexivity).
  assert (Hfresh : js "p9" ∉ (DBSquad.id <$> Store.squads (MainApp.store demoWorld))).
  { intros Hin. apply list_elem_of_In in Hin. simpl in Hin.
    destruct Hin as [H | [H | []]]; vm_compute in H; discriminate H. }
  split; [split; [exact Hd | exact Hfresh]|].
  exact (proj1 (post_then_delete demoMinutes None (js "p9") (js "2025-06-03T09:00:00Z")
                  Store.Refused demoPhoneForm demoPhoneDraft demoWorld Hd Hfresh)).
Defined.

(** ** Saving twice *)

Lemma trimStart_idem s : trimStart (trimStart s) = trimStart s.
Proof.
  induction s as [|c s IH]; simpl; [done|].
  destruct (isSpace c) eqn:Hc; [done|]. simpl. by rewrite Hc.
Qed.

Lemma trimStart_snoc u c :
  isSpace c = false -> exists v, trimStart (u ++ [c]) = v ++ [c].
Proof.
  intros Hc. induction u as [|a u IH]; simpl.
  - rewrite Hc. by exists [].
  - destruct (isSpace a); [done|]. by exists (a :: u).
Qed.

Lemma trimStart_fixed_cases s :
  trimStart s = s -> s = [] \/ exists c t, s = c :: t /\ isSpace c = false.
Proof.
  destruct s as [|c t]; [by left|]. simpl. destruct (isSpace c) eqn:Hc.
  - intros H. exfalso. pose proof (trimStart_length t) as Hl. rewrite H in Hl.
    simpl in Hl. lia.
  - intros _. right. eauto.
Qed.

Lemma trimStart_trimEnd t : trimStart t = t -> trimStart (trimEnd t) = trimEnd t.
Proof.
  intros Ht. apply trimStart_fixed_cases in Ht as [-> | (c & t' & -> & Hc)]; [done|].
  unfold trimEnd. rewrite reverse_cons.
  destruct (trimStart_snoc (reverse t') c Hc) as [v ->].
  rewrite reverse_app. simpl. by rewrite Hc.
Qed.

Lemma trim_idem s : trim (trim s) = trim s.
Proof.
  unfold trim. rewrite (trimStart_trimEnd (trimStart s)) by apply trimStart_idem.
  unfold trimEnd. by rewrite reverse_involutive, trimStart_idem.
Qed.

Lemma submittedContact_idem ct cv :
  submittedContact (type (submittedContact ct cv)) (value (submittedContact ct cv))
  = submittedContact ct cv.
Proof.
  unfold submittedContact; simpl. destruct (_ || _); f_equal.
  - rewrite (sanitizePhone_filter (sanitizePhone cv)).
    apply filter_all_true. rewrite sanitizePhone_filter. apply filter_Forall_true.
  - apply trim_idem.
Qed.

Lemma trimmedOrUndefined_idem m :
  EditModal.trimmedOrUndefined (EditModal.messageOr (EditModal.trimmedOrUndefined m))
  = EditModal.trimmedOrUndefined m.
Proof.
  unfold EditModal.trimmedOrUndefined.
  destruct (isEmpty (trim m)) eqn:He; simpl; [done|]. by rewrite trim_idem, He.
Qed.

Lemma EditModal_submit_value f s :
  (EditModal.submit f).2 = Some s ->
  s = Squad.mk (Squad.id (EditModal.squad f)) (trim (EditModal.title f))
        (trim (EditModal.leaderName f)) (EditModal.date f) (EditModal.time f)
        (trim (EditModal.location f)) (EditModal.discipline f) (EditModal.capacity f)
        (EditModal.trimmedOrUndefined (EditModal.message f))
        (submittedContact (EditModal.contactType f) (EditModal.contactValue f))
        (Squad.leaderPin (EditModal.squad f)) (EditModal.members f)
        (Squad.createdAt (EditModal.squad f)).
Proof.
  unfold EditModal.submit, EditModal.validate; simpl.
  destruct (noKeys _); simpl; [|discriminate]. by intros [= <-].
Qed.

(** X23: saving is idempotent.  If the edit form, opened on a squad it
    has itself produced and left untouched, passes validation again, it
    hands [saveEdit] that very squad: trimming the trimmed fields,
    sanitising the sanitised phone number and normalising the message a
    second time change nothing. *)
Theorem edit_twice_same (f : EditModal.t) (s1 s2 : Squad.t) :
  (EditModal.submit f).2 = Some s1 ->
  (EditModal.submit (EditModal.open s1)).2 = Some s2 ->
  s2 = s1.
Proof.
  intros H1 H2. apply EditModal_submit_value in H1, H2.
  rewrite H2, H1.
  cbn -[submittedContact EditModal.trimmedOrUndefined EditModal.messageOr trim].
  rewrite !trim_idem, trimmedOrUndefined_idem, submittedContact_idem. done.
Qed.

Lemma edit_twice_same_witness :
  exists s2,
    (EditModal.submit demoEditForm).2 = Some demoEdited
    /\ (EditModal.submit (EditModal.open demoEdited)).2 = Some s2
    /\ s2 = demoEdited.
Proof.
  assert (H1 : (EditModal.submit demoEditForm).2 = Some demoEdited)
    by (vm_compute; reflexivity).
  assert (H2 : (EditModal.submit (EditModal.open demoEdited)).2 = Some demoEdited)
    by (vm_compute; reflexivity).
  exists demoEdited. split; [exact H1|]. split; [exact H2|].
  exact (edit_twice_same demoEditForm demoEdited demoEdited H1 H2).
Defined.
